(** * Campus navigation front end

    A shallow embedding of the campus-map client:
    - [src/lib/api.ts]: boundary and building requests, the local-storage
      helpers and the image URL builder;
    - [src/lib/api/buildings.ts]: the building list loader with its
      response normaliser;
    - the [MapSelector] component (location picker) with its inner
      [LocationMarker].

    JavaScript numbers are IEEE-754 doubles and are modelled by the
    primitive [float]; parsed JSON objects are finite maps from property
    names to values; asynchronous functions are computations over an
    explicit world (server, console, local storage) that either return or
    throw. *)

From Stdlib Require Import ZArith String Ascii List Floats Bool Lia.
From Stdlib Require Uint63.
From stdpp Require Import base option gmap strings.
Import ListNotations.

#[local] Set Warnings "-register-all,-inexact-float".
#[local] Open Scope string_scope.

(** ** JavaScript values and the built-ins the sources call *)
Module Js.

(** A value produced by [JSON.parse] / [response.json()], also used for
    the plain data (arrays of numbers, records) the client builds. *)
Inductive json : Type :=
  | JNull
  | JBool (b : bool)
  | JNum (x : float)
  | JStr (s : string)
  | JArr (items : list json)
  | JObj (members : gmap string json).

(** A run-time value: [undefined] or a JSON-like value. *)
Definition value : Type := option json.
Definition undefined : value := None.
Definition null : json := JNull.

(** What a [throw] carries: an instance of [Error] (with its message) or
    any other value. *)
Inductive thrown : Type :=
  | ErrorObj (message : string)
  | NonError (v : value).

(** Outcome of running a piece of code: normal return or exception
    (for an async function: promise fulfilled or rejected). *)
Inductive completion (A : Type) : Type :=
  | Return (a : A)
  | Throw (e : thrown).
Arguments Return {A} a.
Arguments Throw {A} e.

(** [Array.isArray(v)] *)
Definition Array_isArray (v : value) : bool :=
  match v with
  | Some (JArr _) => true
  | _ => false
  end.

(** [typeof v === 'object'] *)
Definition typeof_object (v : json) : bool :=
  match v with
  | JNull | JArr _ | JObj _ => true
  | _ => false
  end.

(** ToBoolean, as used by [&&], [||] and [if]. *)
Definition truthy (v : json) : bool :=
  match v with
  | JNull => false
  | JBool b => b
  | JNum x => negb (PrimFloat.is_zero x || PrimFloat.is_nan x)
  | JStr s => negb (String.eqb s "")
  | JArr _ | JObj _ => true
  end.

Definition truthy_value (v : value) : bool :=
  match v with
  | Some j => truthy j
  | None => false
  end.

(** Property read [v.k] for the property names the sources use
    ([boundaries], [message], [buildings], [data], [results]): none of
    them is an array index, [length], or a member of a built-in
    prototype, so only a parsed object can hold one.  Reading a property
    of [null] throws a [TypeError]. *)
Definition getProp (v : json) (k : string) : completion value :=
  match v with
  | JNull => Throw (ErrorObj ("Cannot read properties of null (reading '" ++ k ++ "')"))
  | JObj m => Return (m !! k)
  | _ => Return undefined
  end.

(** Property read on a value already known to be a non-null object
    (guarded by [data && typeof data === 'object']). *)
Definition member (v : json) (k : string) : value :=
  match v with
  | JObj m => m !! k
  | _ => undefined
  end.

(** [a || b] on values whose right operand is never undefined. *)
Definition or_else (a : value) (b : json) : json :=
  match a with
  | Some j => if truthy j then j else b
  | None => b
  end.

(** JSON text, abstracted to the value it denotes; [Malformed] is any
    string that is not JSON text (the empty string included). *)
Inductive text : Type :=
  | Text (denotes : json)
  | Malformed (raw : string).

(** [JSON.parse(t)]: throws a [SyntaxError] on text that is not JSON. *)
Definition JSON_parse (t : text) : completion json :=
  match t with
  | Text j => Return j
  | Malformed "" => Throw (ErrorObj "Unexpected end of JSON input")
  | Malformed _ => Throw (ErrorObj "Unexpected token in JSON")
  end.

(** A string is falsy exactly when it is empty. *)
Definition truthy_text (t : text) : bool :=
  match t with
  | Malformed "" => false
  | _ => true
  end.

(** How [JSON.stringify] writes a number: NaN and the infinities become
    [null], both zeros are written [0], every other double is written
    with digits that read back as the same double. *)
Definition JSON_number (x : float) : json :=
  match PrimFloat.classify x with
  | NaN | PInf | NInf => JNull
  | PZero | NZero => JNum 0
  | _ => JNum x
  end.

(** The value denoted by [JSON.stringify(v)]. *)
Fixpoint JSON_value (v : json) : json :=
  match v with
  | JNum x => JSON_number x
  | JArr items => JArr (map JSON_value items)
  | JObj members => JObj (JSON_value <$> members)
  | _ => v
  end.

Definition JSON_stringify (v : json) : text := Text (JSON_value v).

(** [s.startsWith(p)] *)
Definition startsWith (s p : string) : bool := String.prefix p s.

(** A [[number, number]] tuple and a [[number, number][]] array as
    run-time values. *)
Definition pair_value (p : float * float) : json :=
  JArr [JNum (fst p); JNum (snd p)].

Definition boundaries_value (b : list (float * float)) : json :=
  JArr (map pair_value b).

(** Numbers that [JSON.stringify] followed by [JSON.parse] gives back
    bit for bit: every double but NaN, the infinities and negative
    zero. *)
Definition json_exact (x : float) : bool :=
  match PrimFloat.classify x with
  | NaN | PInf | NInf | NZero => false
  | _ => true
  end.

End Js.

(** ** The browser environment: fetch, console, local storage *)
Module Browser.
Import Js.

Inductive body : Type :=
  | NoBody
  | JsonBody (t : text)
  | FormData (file : string).

Record request : Type := {
  url : string;
  method : string;
  headers : list (string * string);
  cache : option string;
  reqBody : body
}.

Record response : Type := {
  ok : bool;
  status : Z;
  statusText : string;
  resBody : text
}.

(** The promise returned by [fetch]: rejected (network failure) or
    fulfilled with a response. *)
Inductive fetched : Type :=
  | Rejected (e : thrown)
  | Resolved (r : response).

Inductive level : Type := Log | Warn | Error.

Inductive storageOp : Type :=
  | GetItem (key : string)
  | SetItem (key : string) (v : text).

(** The world a call runs in.  [localStorage] is [None] where
    [window] or [window.localStorage] is missing; [storageLog] records
    every access to it, oldest first; [console] records the first
    argument of every console call, oldest first. *)
Record world (S : Type) : Type := {
  server : S;
  localStorage : option (gmap string text);
  storageLog : list storageOp;
  console : list (level * string)
}.
Arguments server {S} _.
Arguments localStorage {S} _.
Arguments storageLog {S} _.
Arguments console {S} _.

(** Computations: read and update the world, return or throw. *)
Definition M (S A : Type) : Type := world S -> completion A * world S.

Definition ret {S A} (a : A) : M S A := fun w => (Return a, w).

Definition throw {S A} (e : thrown) : M S A := fun w => (Throw e, w).

Definition bind {S A B} (m : M S A) (k : A -> M S B) : M S B :=
  fun w =>
    match m w with
    | (Return a, w') => k a w'
    | (Throw e, w') => (Throw e, w')
    end.

(** [try { m } catch (error) { handler error }] *)
Definition try_catch {S A} (m : M S A) (handler : thrown -> M S A) : M S A :=
  fun w =>
    match m w with
    | (Return a, w') => (Return a, w')
    | (Throw e, w') => handler e w'
    end.

(** Lift a pure completion (a synchronous call that may throw). *)
Definition lift {S A} (c : completion A) : M S A := fun w => (c, w).

Definition console_call {S} (l : level) (msg : string) : M S unit :=
  fun w =>
    (Return tt,
     {| server := server w; localStorage := localStorage w;
        storageLog := storageLog w; console := console w ++ [(l, msg)] |}).

(** [typeof window !== 'undefined' && window.localStorage] *)
Definition localStorage_available {S} : M S bool :=
  fun w => (Return (bool_decide (is_Some (localStorage w))), w).

(** [localStorage.getItem(key)]: the stored string or [null]. *)
Definition localStorage_getItem {S} (key : string) : M S (option text) :=
  fun w =>
    (Return (localStorage w ≫= (fun items => items !! key)),
     {| server := server w; localStorage := localStorage w;
        storageLog := storageLog w ++ [GetItem key]; console := console w |}).

(** [localStorage.setItem(key, v)] *)
Definition localStorage_setItem {S} (key : string) (v : text) : M S unit :=
  fun w =>
    (Return tt,
     {| server := server w;
        localStorage := (fun items => <[key := v]> items) <$> localStorage w;
        storageLog := storageLog w ++ [SetItem key v]; console := console w |}).

Section Transport.
Context {S : Type}.
(** The network and the server behind it: how a request is answered
    and what it does to the server. *)
Variable serve : request -> S -> fetched * S.

(** [await fetch(...)] *)
Definition fetch (req : request) : M S response :=
  fun w =>
    let '(answer, s') := serve req (server w) in
    let w' := {| server := s'; localStorage := localStorage w;
                 storageLog := storageLog w; console := console w |} in
    match answer with
    | Rejected e => (Throw e, w')
    | Resolved r => (Return r, w')
    end.
End Transport.

(** [await response.json()] *)
Definition response_json {S} (r : response) : M S json :=
  lift (JSON_parse (resBody r)).

End Browser.

Declare Scope js_scope.
Delimit Scope js_scope with js.
Notation "'let*' x ':=' m 'in' k" := (Browser.bind m (fun x => k))
  (at level 10, x name, m at level 100, k at level 200) : js_scope.
Notation "m ';;' k" := (Browser.bind m (fun _ => k))
  (at level 100, k at level 200, right associativity) : js_scope.

(** ** src/lib/api.ts *)
Module Api.
Import Js Browser.
#[local] Open Scope js_scope.

(** Default boundary points as fallback if loading fails. *)
Definition defaultBoundaries : list (float * float) := [].

(** Local storage key for saving boundaries when API fails. *)
Definition LOCAL_STORAGE_KEY : string := "yabatech-campus-boundaries".

(** [process.env.NEXT_PUBLIC_NAVIGATION_API_URL || 'https://...']:
    the variable is [None] when unset; an empty string is falsy. *)
Definition API_BASE_URL (env : option string) : string :=
  match env with
  | Some u => if String.eqb u "" then "https://navigationbackend.onrender.com" else u
  | None => "https://navigationbackend.onrender.com"
  end.

(** [error instanceof Error ? error.message : "Unknown error"] *)
Definition error_message (error : thrown) : string :=
  match error with
  | ErrorObj message => message
  | NonError _ => "Unknown error"
  end.

Definition get_json (u : string) : request :=
  {| url := u; method := "GET"; headers := [("Accept", "application/json")];
     cache := Some "no-cache"; reqBody := NoBody |}.

Definition send_json (m u : string) (payload : text) : request :=
  {| url := u; method := m; headers := [("Content-Type", "application/json")];
     cache := None; reqBody := JsonBody payload |}.

Section Calls.
Context {S : Type}.
Variable serve : request -> S -> fetched * S.
(** [process.env.NEXT_PUBLIC_NAVIGATION_API_URL] *)
Variable env : option string.

(** Saves boundaries to localStorage as a fallback. *)
Definition saveToLocalStorage (boundaries : list (float * float)) : M S unit :=
  try_catch
    (let* available := localStorage_available in
     if available
     then localStorage_setItem LOCAL_STORAGE_KEY
            (JSON_stringify (boundaries_value boundaries)) ;;
          console_call Log "Successfully saved boundaries to localStorage"
     else ret tt)
    (fun error =>
       console_call Warn "Failed to save boundaries to localStorage:").

(** Loads boundaries from localStorage if available: the stored array
    when it parses to an array of at least three entries, otherwise
    [null]. *)
Definition loadFromLocalStorage : M S json :=
  try_catch
    (let* available := localStorage_available in
     if available
     then
       let* storedData := localStorage_getItem LOCAL_STORAGE_KEY in
       match storedData with
       | Some stored =>
           if truthy_text stored
           then
             let* parsedData := lift (JSON_parse stored) in
             match parsedData with
             | JArr items =>
                 if (3 <=? length items)%nat
                 then console_call Log "Successfully loaded boundaries from localStorage" ;;
                      ret parsedData
                 else ret null
             | _ => ret null
             end
           else ret null
       | None => ret null
       end
     else ret null)
    (fun error =>
       console_call Warn "Failed to load boundaries from localStorage:" ;;
       ret null).

(** Loads campus boundaries from the server. *)
Definition loadBoundaries : M S value :=
  try_catch
    (let* response := fetch serve
       {| url := "/api/boundaries"; method := "GET"; headers := [];
          cache := None; reqBody := NoBody |} in
     if negb (ok response)
     then throw (ErrorObj ("Failed to load boundaries: " ++ statusText response))
     else
       let* data := response_json response in
       lift (getProp data "boundaries"))
    (fun error =>
       console_call Error "Error loading boundaries:" ;;
       ret (Some null)).

(** Saves campus boundaries to the server. *)
Definition saveBoundaries (boundaries : list (float * float)) : M S json :=
  try_catch
    (let* response := fetch serve
       (send_json "POST" "/api/boundaries"
          (JSON_stringify (JObj {[ "boundaries" := boundaries_value boundaries ]}))) in
     if negb (ok response)
     then throw (ErrorObj ("Failed to save boundaries: " ++ statusText response))
     else
       let* data := response_json response in
       let* message := lift (getProp data "message") in
       ret (or_else message (JStr "Boundaries saved successfully")))
    (fun error =>
       console_call Error "Error saving boundaries:" ;;
       ret (JStr ("Error: " ++ error_message error))).

(** Loads all buildings from the Navigation API. *)
Definition loadBuildings : M S json :=
  try_catch
    (console_call Log "Fetching buildings from local API proxy" ;;
     let* response := fetch serve (get_json "/api/buildings") in
     console_call Log "Response status:" ;;
     if negb (ok response)
     then throw (ErrorObj ("Failed to load buildings: " ++ statusText response))
     else
       let* data := response_json response in
       console_call Log "Buildings data received:" ;;
       ret data)
    (fun error =>
       console_call Error "Error loading buildings:" ;;
       ret null).

(** Loads a building by its slug. *)
Definition loadBuildingBySlug (slug : string) : M S json :=
  try_catch
    (console_call Log ("Fetching building with slug '" ++ slug ++ "' from local API proxy") ;;
     let* response := fetch serve (get_json ("/api/buildings/" ++ slug)) in
     if negb (ok response)
     then throw (ErrorObj ("Failed to load building: " ++ statusText response))
     else
       let* data := response_json response in
       console_call Log "Building data received:" ;;
       ret data)
    (fun error =>
       console_call Error ("Error loading building with slug " ++ slug ++ ":") ;;
       ret null).

(** Creates a new building. *)
Definition createBuilding (buildingData : json) : M S json :=
  try_catch
    (let* response := fetch serve
       (send_json "POST" (API_BASE_URL env ++ "/buildings/create")
          (JSON_stringify buildingData)) in
     if negb (ok response)
     then throw (ErrorObj ("Failed to create building: " ++ statusText response))
     else
       let* data := response_json response in
       ret data)
    (fun error =>
       console_call Error "Error creating building:" ;;
       throw error).

(** Updates a building by its slug. *)
Definition updateBuilding (slug : string) (buildingData : json) : M S json :=
  try_catch
    (let* response := fetch serve
       (send_json "PUT" (API_BASE_URL env ++ "/buildings/" ++ slug)
          (JSON_stringify buildingData)) in
     if negb (ok response)
     then throw (ErrorObj ("Failed to update building: " ++ statusText response))
     else
       let* data := response_json response in
       ret data)
    (fun error =>
       console_call Error ("Error updating building with slug " ++ slug ++ ":") ;;
       throw error).

(** Uploads an image for a building. *)
Definition uploadBuildingImage (slug : string) (file : string) : M S json :=
  try_catch
    (let* response := fetch serve
       {| url := "/api/buildings/" ++ slug ++ "/upload"; method := "POST";
          headers := []; cache := None; reqBody := FormData file |} in
     if negb (ok response)
     then throw (ErrorObj ("Failed to upload image: " ++ statusText response))
     else response_json response)
    (fun error =>
       console_call Error "Error uploading building image:" ;;
       throw error).

(** Gets the URL for a building image. *)
Definition getBuildingImageUrl (slug : string) : string :=
  if startsWith slug "http"
  then slug
  else API_BASE_URL env ++ "/buildings/" ++ slug ++ "/image".

End Calls.
End Api.

(** ** src/lib/api/buildings.ts *)
Module ApiBuildings.
Import Js Browser.
#[local] Open Scope js_scope.

(** The array a value is, if it is one. *)
Definition as_array (v : value) : option (list json) :=
  match v with
  | Some (JArr items) => Some items
  | _ => None
  end.

(** The first array among the candidates, in their order; the empty
    array when none of them is one. *)
Definition first_array (candidates : list value) : list json :=
  default [] (head (omap as_array candidates)).

(** Handle different response formats (the statements between
    [const data = await response.json()] and [return []]). *)
Definition normalize (data : json) : list json :=
  match data with
  | JArr items => items
  | _ =>
      if truthy data && typeof_object data
      then
        (* The API might wrap buildings in an object *)
        match member data "buildings" with
        | Some (JArr items) => items
        | _ =>
            match member data "data" with
            | Some (JArr items) => items
            | _ =>
                match member data "results" with
                | Some (JArr items) => items
                | _ => []
                end
            end
        end
      else []
  end.

Section Calls.
Context {S : Type}.
Variable serve : request -> S -> fetched * S.

(** Loads all buildings from the Navigation API. *)
Definition loadBuildings : M S (list json) :=
  try_catch
    (console_call Log "Fetching buildings from local API proxy" ;;
     let* response := fetch serve (Api.get_json "/api/buildings") in
     if negb (ok response)
     then throw (ErrorObj ("Failed to load buildings: " ++ statusText response))
     else
       let* data := response_json response in
       ret (normalize data))
    (fun error =>
       console_call Error "Error loading buildings:" ;;
       throw error).

(** Saves buildings to the API. *)
Definition saveBuildings (buildings : list json) : M S json :=
  try_catch
    (let* response := fetch serve
       (Api.send_json "POST" "/api/buildings" (JSON_stringify (JArr buildings))) in
     if negb (ok response)
     then throw (ErrorObj ("Failed to save buildings: " ++ statusText response))
     else
       let* data := response_json response in
       let* message := lift (getProp data "message") in
       ret (or_else message (JStr "Buildings saved successfully")))
    (fun error =>
       console_call Error "Error saving buildings:" ;;
       throw error).
End Calls.
End ApiBuildings.

(** ** The location picker: components [LocationMarker] and [MapSelector] *)
Module MapSelector.

Record LatLng : Type := { lat : float; lng : float }.

(** Modelled from the spec: the [Building] record of [@/lib/types], which
    is imported but not part of the sources: a unique slug, a name, a
    coordinate pair and an optional image reference. *)
Record Building : Type := {
  slug : string;
  name : string;
  coordinates : LatLng;
  image : option string
}.

(** Identity of a position object.  [useEffect] compares dependencies by
    identity, so a position object is its identity together with its
    contents.  Objects handed in by the parent carry the identity the
    parent gave them; the literal [{ lat: 6.51771, lng: 3.37534 }] in the
    body of [MapSelector] is a new object each time the body runs. *)
Inductive ref : Type :=
  | External (n : nat)
  | Literal (render : nat).

Record object : Type := { identity : ref; fields : LatLng }.

Definition ref_eqb (a b : ref) : bool :=
  match a, b with
  | External n, External m => Nat.eqb n m
  | Literal n, Literal m => Nat.eqb n m
  | _, _ => false
  end.

(** The props of [MapSelector] other than the callback, whose invocations
    are recorded in the state. *)
Record MapSelectorProps : Type := {
  initialPosition : option object;
  buildings : list Building
}.

(** The fixed campus coordinate used when no initial position is given. *)
Definition campus : LatLng := {| lat := 6.51771; lng := 3.37534 |}.

(** Everything the mounted component holds. *)
Record State : Type := {
  (** current props of [MapSelector] *)
  props : MapSelectorProps;
  (** [MapSelector]: [useState(defaultPosition)] *)
  selectedPosition : LatLng;
  (** [LocationMarker]: [useState(initialPosition || ...)] *)
  position : LatLng;
  (** [LocationMarker]: the [initialPosition] dependency seen by the last
      run of its effect, [None] before the first run *)
  deps : option ref;
  (** the Leaflet map view *)
  center : LatLng;
  zoom : float;
  (** arguments of the calls to the [onLocationSelect] prop, oldest first *)
  calls : list LatLng;
  (** how many times the body of [MapSelector] has run *)
  renders : nat
}.

Definition set_selectedPosition (p : LatLng) (s : State) : State :=
  {| props := props s; selectedPosition := p; position := position s;
     deps := deps s; center := center s; zoom := zoom s; calls := calls s;
     renders := renders s |}.

Definition set_position (p : LatLng) (s : State) : State :=
  {| props := props s; selectedPosition := selectedPosition s; position := p;
     deps := deps s; center := center s; zoom := zoom s; calls := calls s;
     renders := renders s |}.

Definition set_props (p : MapSelectorProps) (s : State) : State :=
  {| props := p; selectedPosition := selectedPosition s; position := position s;
     deps := deps s; center := center s; zoom := zoom s; calls := calls s;
     renders := renders s |}.

(** [props.onLocationSelect(location)] *)
Definition onLocationSelect (location : LatLng) (s : State) : State :=
  {| props := props s; selectedPosition := selectedPosition s;
     position := position s; deps := deps s; center := center s; zoom := zoom s;
     calls := calls s ++ [location]; renders := renders s |}.

(** [map.flyTo(target, z)] *)
Definition flyTo (target : LatLng) (z : float) (s : State) : State :=
  {| props := props s; selectedPosition := selectedPosition s;
     position := position s; deps := deps s; center := target; zoom := z;
     calls := calls s; renders := renders s |}.

(** [const defaultPosition = initialPosition || { lat: 6.51771, lng: 3.37534 }],
    evaluated by the [n]-th run of the body of [MapSelector]. *)
Definition defaultPosition (p : MapSelectorProps) (n : nat) : object :=
  match initialPosition p with
  | Some o => o
  | None => {| identity := Literal n; fields := campus |}
  end.

(** [MapSelector.handleLocationSelect] *)
Definition handleLocationSelect (location : LatLng) (s : State) : State :=
  onLocationSelect location (set_selectedPosition location s).

(** [LocationMarker]: the [click] handler given to [useMapEvents]; its
    [onLocationSelect] prop is [handleLocationSelect]. *)
Definition click (latlng : LatLng) (s : State) : State :=
  let newPos := {| lat := lat latlng; lng := lng latlng |} in
  handleLocationSelect newPos (set_position newPos s).

(** [LocationMarker]: the body of the effect, run with the
    [initialPosition] prop it was rendered with (always an object, since
    [MapSelector] passes [defaultPosition]). *)
Definition effect (initialPosition : object) (s : State) : State :=
  flyTo (fields initialPosition) (zoom s)
    (set_position (fields initialPosition) s).

(** [useEffect(..., [initialPosition, map])]: the effect runs after a
    render when the [initialPosition] dependency is not the object of the
    previous run (the map instance never changes). *)
Definition useEffect (initialPosition : object) (s : State) : State :=
  let changed :=
    match deps s with
    | Some previous => negb (ref_eqb previous (identity initialPosition))
    | None => true
    end in
  if changed
  then
    let s' := effect initialPosition s in
    {| props := props s'; selectedPosition := selectedPosition s';
       position := position s'; deps := Some (identity initialPosition);
       center := center s'; zoom := zoom s'; calls := calls s';
       renders := renders s' |}
  else s.

(** One run of the body of [MapSelector] with the current props and
    state, followed by the effects of the [LocationMarker] it renders. *)
Definition render (s : State) : State :=
  let dp := defaultPosition (props s) (renders s) in
  useEffect dp
    {| props := props s; selectedPosition := selectedPosition s;
       position := position s; deps := deps s; center := center s;
       zoom := zoom s; calls := calls s; renders := S (renders s) |}.

(** First render: both [useState] calls take [defaultPosition],
    [MapContainer] is centred on it at zoom 17, then the effect runs. *)
Definition mount (p : MapSelectorProps) : State :=
  let dp := defaultPosition p 0 in
  useEffect dp
    {| props := p; selectedPosition := fields dp; position := fields dp;
       deps := None; center := fields dp; zoom := 17; calls := [];
       renders := 1 |}.

(** What is on screen: the marker of [LocationMarker], the two numeric
    inputs, and one marker per building. *)
Record View : Type := {
  marker : LatLng;
  latitudeInput : float;
  longitudeInput : float;
  buildingMarkers : list (float * float)
}.

Definition view (s : State) : View :=
  {| marker := position s;
     latitudeInput := lat (selectedPosition s);
     longitudeInput := lng (selectedPosition s);
     buildingMarkers :=
       map (fun building => (lat (coordinates building), lng (coordinates building)))
         (buildings (props s)) |}.

(** What can happen to a mounted component: a click on the map surface, a
    change of either numeric input (with the text entered), or the parent
    rendering it again with some props. *)
Inductive Event : Type :=
  | MapClick (latlng : LatLng)
  | LatitudeChange (value : string)
  | LongitudeChange (value : string)
  | Rerender (p : MapSelectorProps).

Section Parsing.
(** The global [parseFloat]. *)
Variable parseFloat : string -> float.

(** [onChange] of the latitude input; [None] when no state is set. *)
Definition onChangeLatitude (value : string) (s : State) : option State :=
  let newLat := parseFloat value in
  if negb (PrimFloat.is_nan newLat)
  then
    let newPos := {| lat := newLat; lng := lng (selectedPosition s) |} in
    Some (onLocationSelect newPos (set_selectedPosition newPos s))
  else None.

(** [onChange] of the longitude input; [None] when no state is set. *)
Definition onChangeLongitude (value : string) (s : State) : option State :=
  let newLng := parseFloat value in
  if negb (PrimFloat.is_nan newLng)
  then
    let newPos := {| lat := lat (selectedPosition s); lng := newLng |} in
    Some (onLocationSelect newPos (set_selectedPosition newPos s))
  else None.

(** One event: the handler runs, and when it set state (or the props
    changed) the component renders again. *)
Definition step (s : State) (e : Event) : State :=
  match e with
  | MapClick latlng => render (click latlng s)
  | LatitudeChange value =>
      match onChangeLatitude value s with
      | Some s' => render s'
      | None => s
      end
  | LongitudeChange value =>
      match onChangeLongitude value s with
      | Some s' => render s'
      | None => s
      end
  | Rerender p => render (set_props p s)
  end.

Definition run (s : State) (events : list Event) : State :=
  fold_left step events s.

End Parsing.

(** Two states that differ at most in the [buildings] prop. *)
Definition same_but_buildings (s1 s2 : State) : Prop :=
  initialPosition (props s1) = initialPosition (props s2) /\
  selectedPosition s1 = selectedPosition s2 /\
  position s1 = position s2 /\
  deps s1 = deps s2 /\
  center s1 = center s2 /\
  zoom s1 = zoom s2 /\
  calls s1 = calls s2 /\
  renders s1 = renders s2.

(** Two events that differ at most in the [buildings] prop they carry. *)
Definition same_event_but_buildings (e1 e2 : Event) : Prop :=
  match e1, e2 with
  | Rerender p1, Rerender p2 => initialPosition p1 = initialPosition p2
  | _, _ => e1 = e2
  end.

End MapSelector.

(** ** Environments used to state and run the properties *)
Module Env.
Import Js Browser.

(** The request [loadBoundaries] sends. *)
Definition get_boundaries : request :=
  {| url := "/api/boundaries"; method := "GET"; headers := [];
     cache := None; reqBody := NoBody |}.

(** The request [saveBoundaries] sends for a boundary array. *)
Definition save_request (boundaries : list (float * float)) : request :=
  Api.send_json "POST" "/api/boundaries"
    (JSON_stringify (JObj {[ "boundaries" := boundaries_value boundaries ]})).

(** A save request, by the JSON its body denotes under [boundaries]. *)
Definition post_boundaries (payload : json) : request :=
  Api.send_json "POST" "/api/boundaries"
    (Text (JObj {[ "boundaries" := payload ]})).

(** A call fails in transport: [fetch] rejects or the response is not ok. *)
Definition transport_fails (answer : fetched) : Prop :=
  match answer with
  | Rejected _ => True
  | Resolved r => ok r = false
  end.

(** An ok response whose body cannot be used: not JSON text. *)
Definition unreadable (answer : fetched) : Prop :=
  match answer with
  | Rejected _ => False
  | Resolved r => ok r = true /\ exists raw, resBody r = Malformed raw
  end.

(** A call fails: in transport, or while reading the body. *)
Definition fails (answer : fetched) : Prop :=
  transport_fails answer \/ unreadable answer.

(** An ok response carrying JSON text for [data]. *)
Definition succeeds_with (answer : fetched) (data : json) : Prop :=
  match answer with
  | Rejected _ => False
  | Resolved r => ok r = true /\ resBody r = Text data
  end.

Definition is_error_string (v : json) : Prop :=
  match v with
  | JStr s => String.prefix "Error:" s = true
  | _ => False
  end.

(** Modelled from the spec: a stable backend that echoes what was stored.
    Whatever its answer to a save of [{ boundaries: payload }], a load
    that follows is answered ok with an object holding that payload under
    [boundaries].  The routes behind [/api/boundaries] are not part of
    the sources. *)
Definition stable_backend {S : Type} (serve : request -> S -> fetched * S) : Prop :=
  forall (payload : json) (s : S),
    exists members,
      succeeds_with
        (fst (serve get_boundaries (snd (serve (post_boundaries payload) s))))
        (JObj members) /\
      members !! "boundaries" = Some payload.

(** No network: every [fetch] rejects. *)
Definition offline {S : Type} (req : request) (s : S) : fetched * S :=
  (Rejected (ErrorObj "Failed to fetch"), s).

(** A server that gives one fixed response to everything. *)
Definition answering {S : Type} (r : response) (req : request) (s : S) : fetched * S :=
  (Resolved r, s).

Definition ok_with (t : text) : response :=
  {| ok := true; status := 200; statusText := "OK"; resBody := t |}.

(** An ok response without a body (204 No Content). *)
Definition no_content : response :=
  {| ok := true; status := 204; statusText := "No Content";
     resBody := Malformed "" |}.

Definition server_error : response :=
  {| ok := false; status := 500; statusText := "Internal Server Error";
     resBody := Malformed "" |}.

(** A backend for [/api/boundaries] whose state is the stored boundaries:
    a POST stores the [boundaries] member of its body, a GET returns the
    stored value under [boundaries]. *)
Definition echo (req : request) (stored : json) : fetched * json :=
  if String.eqb (url req) "/api/boundaries"
  then
    if String.eqb (method req) "POST"
    then
      match reqBody req with
      | JsonBody (Text (JObj members)) =>
          match members !! "boundaries" with
          | Some payload =>
              (Resolved (ok_with (Text (JObj {[ "message" := JStr "Boundaries saved" ]}))),
               payload)
          | None => (Resolved server_error, stored)
          end
      | _ => (Resolved server_error, stored)
      end
    else (Resolved (ok_with (Text (JObj {[ "boundaries" := stored ]}))), stored)
  else (Resolved server_error, stored).

Definition fresh_world {S : Type} (s : S) (storage : option (gmap string text)) : world S :=
  {| server := s; localStorage := storage; storageLog := []; console := [] |}.

(** A triangle of boundary points. *)
Definition triangle : list (float * float) :=
  [(6.5, 3.3); (6.5, 3.4); (6.6, 3.3)]%float.

(** The triangle with a corner whose latitude is NaN. *)
Definition broken_triangle : list (float * float) :=
  [(nan, 3.3); (6.5, 3.4); (6.6, 3.3)]%float.

(** A browser whose local storage already holds the triangle. *)
Definition cached_triangle : option (gmap string text) :=
  Some {[ Api.LOCAL_STORAGE_KEY := JSON_stringify (boundaries_value triangle) ]}.

(** The picker mounted with the position the parent first passes, and
    the props the parent passes next: another object, another place. *)
Definition first_props : MapSelector.MapSelectorProps :=
  {| MapSelector.initialPosition :=
       Some {| MapSelector.identity := MapSelector.External 0;
               MapSelector.fields := {| MapSelector.lat := 6.5; MapSelector.lng := 3.3 |} |};
     MapSelector.buildings := [] |}.

Definition next_props : MapSelector.MapSelectorProps :=
  {| MapSelector.initialPosition :=
       Some {| MapSelector.identity := MapSelector.External 1;
               MapSelector.fields := {| MapSelector.lat := 6.6; MapSelector.lng := 3.4 |} |};
     MapSelector.buildings := [] |}.

(** Props without an initial position, with and without buildings. *)
Definition bare_props : MapSelector.MapSelectorProps :=
  {| MapSelector.initialPosition := None; MapSelector.buildings := [] |}.

Definition library : MapSelector.Building :=
  {| MapSelector.slug := "library"; MapSelector.name := "Library";
     MapSelector.coordinates := {| MapSelector.lat := 6.518; MapSelector.lng := 3.372 |};
     MapSelector.image := None |}.

Definition props_with_library : MapSelector.MapSelectorProps :=
  {| MapSelector.initialPosition := None; MapSelector.buildings := [library] |}.

Definition digit (c : ascii) : option Z :=
  let n := Z.of_nat (nat_of_ascii c) in
  if (48 <=? n)%Z && (n <=? 57)%Z then Some (n - 48)%Z else None.

(** Reads leading decimal digits: the number read on top of [acc], how
    many digits there were, and the rest of the string. *)
Fixpoint digits (s : string) (acc : Z) (count : nat) : Z * nat * string :=
  match s with
  | String c rest =>
      match digit c with
      | Some d => digits rest (10 * acc + d)%Z (S count)
      | None => (acc, count, s)
      end
  | EmptyString => (acc, count, s)
  end.

Definition float_of_Z (z : Z) : float := PrimFloat.of_uint63 (Uint63.of_Z z).

(** A stand-in for the global [parseFloat] on plain decimal literals
    (optional sign, digits, optional fraction) of at most 15 digits: the
    digits and the power of ten are then exact doubles, and their
    quotient is the nearest double.  Text that does not start with a
    number gives NaN. *)
Definition parseDecimal (s : string) : float :=
  let '(negative, s1) :=
    match s with
    | String "-" rest => (true, rest)
    | String "+" rest => (false, rest)
    | _ => (false, s)
    end in
  let '(whole, nw, s2) := digits s1 0 0 in
  let '(mantissa, nf) :=
    match s2 with
    | String "." rest => let '(m, n, _) := digits rest whole 0 in (m, n)
    | _ => (whole, 0%nat)
    end in
  if (nw + nf =? 0)%nat
  then nan
  else
    let x := (float_of_Z mantissa / float_of_Z (10 ^ Z.of_nat nf))%float in
    if negative then (- x)%float else x.



(** An event in a run whose parent never passes an [initialPosition]. *)
Definition without_initialPosition (e : MapSelector.Event) : Prop :=
  match e with
  | MapSelector.Rerender p => MapSelector.initialPosition p = None
  | _ => True
  end.

(** The object the effect of [LocationMarker] last saw, when it is a
    default literal, was built by an earlier run of [MapSelector]. *)
Definition effect_saw_earlier_literal (s : MapSelector.State) : Prop :=
  match MapSelector.deps s with
  | Some (MapSelector.Literal n) => (n < MapSelector.renders s)%nat
  | _ => True
  end.

End Env.

(** * Properties *)

Import Js Browser Env.

(** Opens a call down to the answer of the transport. *)
Ltac open_call :=
  unfold Api.loadBoundaries, Api.saveBoundaries, Api.loadBuildings,
    Api.loadBuildingBySlug, Api.createBuilding, Api.updateBuilding,
    Api.uploadBuildingImage, ApiBuildings.loadBuildings,
    ApiBuildings.saveBuildings, try_catch, bind, fetch, throw, ret, lift,
    response_json, console_call, get_boundaries, save_request,
    post_boundaries, Api.get_json, Api.send_json in *;
  simpl in *.

(** Splits on the answer of the transport, the ok flag and the body. *)
Ltac split_answer serve :=
  match goal with
  | |- context [serve ?req ?s] =>
      let answer := fresh "answer" in
      let s' := fresh "s'" in
      destruct (serve req s) as [answer s']; simpl in *;
      destruct answer as [e | [ok_r st stt [data | [ | c raw]]]]; simpl in *;
      try destruct ok_r; simpl in *
  end.

(** Closes the cases of a call assumed to have failed: the result is as
    stated, or the case is not a failure. *)
Ltac failed_call serve :=
  open_call; split_answer serve;
  solve [ reflexivity
        | eauto
        | exfalso; unfold fails, transport_fails, unreadable in *; simpl in *;
          match goal with
          | H : _ \/ _ |- _ => destruct H as [H | [_ [? H]]]; discriminate H
          end ].

(** Opens a local-storage helper down to the storage operations. *)
Ltac open_storage :=
  unfold Api.saveToLocalStorage, Api.loadFromLocalStorage, try_catch, bind, ret,
    lift, console_call, localStorage_available, localStorage_getItem,
    localStorage_setItem in *;
  simpl in *.

(** Opens a call whose answer is described by the hypotheses. *)
Ltac known_answer serve :=
  open_call;
  match goal with
  | |- context [serve ?req ?s] =>
      let answer := fresh "answer" in
      let s' := fresh "s'" in
      destruct (serve req s) as [answer s']
  end;
  simpl in *; subst; simpl in *;
  repeat match goal with
         | H : ok _ = _ |- _ => rewrite H
         | H : resBody _ = _ |- _ => rewrite H
         | H : _ /\ _ |- _ => destruct H
         end;
  simpl; try reflexivity.

Section ApiProperties.
Context {S : Type}.
Variable serve : request -> S -> fetched * S.

Lemma normalize_first_array (v : json) :
  ApiBuildings.normalize v =
  match v with
  | JArr items => items
  | JObj members =>
      ApiBuildings.first_array
        [members !! "buildings"; members !! "data"; members !! "results"]
  | _ => []
  end.
Proof.
  destruct v as [ | b | x | s | items | members]; simpl; try reflexivity.
  - destruct b; reflexivity.
  - destruct (negb _); reflexivity.
  - destruct (negb _); reflexivity.
  - unfold ApiBuildings.first_array; simpl.
    destruct (members !! "buildings") as [[ | | | | l1 | ] | ]; simpl; try reflexivity;
      destruct (members !! "data") as [[ | | | | l2 | ] | ]; simpl; try reflexivity;
      destruct (members !! "results") as [[ | | | | l3 | ] | ]; simpl; reflexivity.
Qed.

(** C1: when the list request is answered ok with JSON for [v],
    [loadBuildings] returns, without raising: the array [v] itself when
    [v] is an array; for an object, the first array found among its
    [buildings], [data] and [results] members, in that order, or the
    empty array when none of them is an array; and the empty array for
    [null] and for every primitive. *)
Theorem loadBuildings_normalizes (w : world S) (v : json) :
  succeeds_with (fst (serve (Api.get_json "/api/buildings") (server w))) v ->
  fst (ApiBuildings.loadBuildings serve w) =
  Return
    match v with
    | JArr items => items
    | JObj members =>
        ApiBuildings.first_array
          [members !! "buildings"; members !! "data"; members !! "results"]
    | _ => []
    end.
Proof.
  intros H. rewrite <- normalize_first_array.
  open_call. split_answer serve; try contradiction;
    destruct H as [H1 H2]; try discriminate.
  inversion H2; subst. reflexivity.
Qed.


(** The three loaders of [api.ts] and [saveBoundaries] catch everything. *)
Lemma api_calls_return (w : world S) (slug : string) (b : list (float * float)) :
  (exists v, fst (Api.loadBoundaries serve w) = Return v) /\
  (exists v, fst (Api.loadBuildings serve w) = Return v) /\
  (exists v, fst (Api.loadBuildingBySlug serve slug w) = Return v) /\
  (exists v, fst (Api.saveBoundaries serve b w) = Return v).
Proof.
  repeat split; open_call; split_answer serve; try destruct data; simpl; eauto.
Qed.

(** C2 (amended): the load operations of [api.ts] ([loadBoundaries],
    [loadBuildings], [loadBuildingBySlug]) never throw, and turn every
    failure (fetch rejected, response not ok, body not JSON) into
    [null]; the caught error is thrown again by [createBuilding],
    [updateBuilding] and [uploadBuildingImage], and also by
    [loadBuildings] and [saveBuildings] of [api/buildings.ts]. *)
Theorem load_failures (env : option string) (w : world S)
    (slug file : string) (buildingData : json) (buildings : list json) :
  ((exists v, fst (Api.loadBoundaries serve w) = Return v) /\
   (exists v, fst (Api.loadBuildings serve w) = Return v) /\
   (exists v, fst (Api.loadBuildingBySlug serve slug w) = Return v)) /\
  (fails (fst (serve get_boundaries (server w))) ->
   fst (Api.loadBoundaries serve w) = Return (Some null)) /\
  (fails (fst (serve (Api.get_json "/api/buildings") (server w))) ->
   fst (Api.loadBuildings serve w) = Return null /\
   exists e, fst (ApiBuildings.loadBuildings serve w) = Throw e) /\
  (fails (fst (serve (Api.get_json ("/api/buildings/" ++ slug)) (server w))) ->
   fst (Api.loadBuildingBySlug serve slug w) = Return null) /\
  (fails (fst (serve (Api.send_json "POST" (Api.API_BASE_URL env ++ "/buildings/create")
                        (JSON_stringify buildingData)) (server w))) ->
   exists e, fst (Api.createBuilding serve env buildingData w) = Throw e) /\
  (fails (fst (serve (Api.send_json "PUT" (Api.API_BASE_URL env ++ "/buildings/" ++ slug)
                        (JSON_stringify buildingData)) (server w))) ->
   exists e, fst (Api.updateBuilding serve env slug buildingData w) = Throw e) /\
  (fails (fst (serve {| url := "/api/buildings/" ++ slug ++ "/upload"; method := "POST";
                        headers := []; cache := None; reqBody := FormData file |}
                 (server w))) ->
   exists e, fst (Api.uploadBuildingImage serve slug file w) = Throw e) /\
  (fails (fst (serve (Api.send_json "POST" "/api/buildings" (JSON_stringify (JArr buildings)))
                 (server w))) ->
   exists e, fst (ApiBuildings.saveBuildings serve buildings w) = Throw e).
Proof.
  repeat apply conj; try (intros H; failed_call serve).
  - destruct (api_calls_return w slug []) as (H1 & _). exact H1.
  - destruct (api_calls_return w slug []) as (_ & H2 & _). exact H2.
  - destruct (api_calls_return w slug []) as (_ & _ & H3 & _). exact H3.
Qed.

(** C7 (amended): [saveBoundaries] never throws.  When the transport
    fails (fetch rejects or the response is not ok) it returns a string
    that begins with "Error:".  On an ok response whose body is JSON for
    a value other than [null] it returns the [message] member when that
    is truthy, and the fixed success string when it is missing or falsy.
    On an ok response whose body is not JSON, or is [null], it returns a
    string that begins with "Error:" as well. *)
Theorem saveBoundaries_result (b : list (float * float)) (w : world S) :
  (exists v, fst (Api.saveBoundaries serve b w) = Return v) /\
  (transport_fails (fst (serve (save_request b) (server w))) ->
   exists v, fst (Api.saveBoundaries serve b w) = Return v /\ is_error_string v) /\
  (forall data,
     succeeds_with (fst (serve (save_request b) (server w))) data ->
     data <> JNull ->
     fst (Api.saveBoundaries serve b w) =
     Return
       match member data "message" with
       | Some message =>
           if truthy message then message else JStr "Boundaries saved successfully"
       | None => JStr "Boundaries saved successfully"
       end) /\
  (unreadable (fst (serve (save_request b) (server w))) \/
   succeeds_with (fst (serve (save_request b) (server w))) JNull ->
   exists v, fst (Api.saveBoundaries serve b w) = Return v /\ is_error_string v).
Proof.
  repeat apply conj.
  - destruct (api_calls_return w "" b) as (_ & _ & _ & H). exact H.
  - intros H. open_call. split_answer serve;
      solve [ eexists; split; [reflexivity | reflexivity] | contradiction | discriminate H ].
  - intros v H Hv. open_call. split_answer serve;
      try contradiction; destruct H as [H1 H2]; try discriminate.
    inversion H2; subst. destruct v; try reflexivity. congruence.
  - intros H. open_call. split_answer serve;
      try solve [ eexists; split; [reflexivity | reflexivity] ].
    destruct H as [[_ [raw H]] | [_ H]]; [discriminate H | ].
    inversion H; subst. simpl. eexists; split; reflexivity.
Qed.

(** Neither boundary call touches local storage. *)
Lemma boundaries_calls_leave_storage (b : list (float * float)) (w : world S) :
  storageLog (snd (Api.loadBoundaries serve w)) = storageLog w /\
  localStorage (snd (Api.loadBoundaries serve w)) = localStorage w /\
  storageLog (snd (Api.saveBoundaries serve b w)) = storageLog w /\
  localStorage (snd (Api.saveBoundaries serve b w)) = localStorage w.
Proof.
  repeat apply conj; open_call; split_answer serve; try destruct data; reflexivity.
Qed.

(** What [saveBoundaries] leaves on the server is what its request did. *)
Lemma saveBoundaries_server (b : list (float * float)) (w : world S) :
  server (snd (Api.saveBoundaries serve b w)) = snd (serve (save_request b) (server w)).
Proof.
  open_call. split_answer serve; try destruct data; reflexivity.
Qed.

(** A load answered ok with an object returns its [boundaries] member. *)
Lemma loadBoundaries_member (w : world S) (members : gmap string json) :
  succeeds_with (fst (serve get_boundaries (server w))) (JObj members) ->
  fst (Api.loadBoundaries serve w) = Return (members !! "boundaries").
Proof.
  intros H. open_call. split_answer serve; try contradiction;
    destruct H as [H1 H2]; try discriminate.
  inversion H2; subst. reflexivity.
Qed.

Lemma classify_PZero (x : float) : PrimFloat.classify x = PZero -> x = 0%float.
Proof.
  intros H. rewrite classify_spec in H. apply Prim2SF_inj.
  unfold SF64classify, SFclassify in H.
  destruct (Prim2SF x) as [[ | ] | [ | ] | | [ | ] m e]; try discriminate H;
    try reflexivity;
    destruct (Z.eqb _ _); discriminate H.
Qed.

Lemma JSON_number_exact (x : float) : json_exact x = true -> JSON_number x = JNum x.
Proof.
  unfold json_exact, JSON_number. intros H.
  destruct (PrimFloat.classify x) eqn:C; try discriminate H; try reflexivity.
  rewrite (classify_PZero x C). reflexivity.
Qed.

Lemma JSON_value_boundaries (b : list (float * float)) :
  Forall (fun p => json_exact (fst p) = true /\ json_exact (snd p) = true) b ->
  JSON_value (boundaries_value b) = boundaries_value b.
Proof.
  intros H. unfold boundaries_value. simpl. f_equal.
  induction H as [ | [x y] b [Hx Hy] _ IH]; simpl.
  - reflexivity.
  - rewrite IH. unfold pair_value; simpl.
    rewrite (JSON_number_exact x Hx), (JSON_number_exact y Hy). reflexivity.
Qed.

Lemma save_request_payload (b : list (float * float)) :
  save_request b = post_boundaries (JSON_value (boundaries_value b)).
Proof.
  unfold save_request, post_boundaries, JSON_stringify.
  change (JSON_value (JObj {[ "boundaries" := boundaries_value b ]}))
    with (JObj (JSON_value <$> ({[ "boundaries" := boundaries_value b ]} : gmap string json))).
  rewrite map_fmap_singleton. reflexivity.
Qed.

(** C8 (amended): against a stable backend that echoes what was stored,
    for every boundary array [b] whose coordinates are all finite and
    none of them negative zero, [saveBoundaries b] followed by
    [loadBoundaries] returns exactly [b]: the same pairs in the same
    order.  The array is sent under [boundaries] and read back from the
    [boundaries] member of the response. *)
Theorem boundaries_round_trip (b : list (float * float)) (w : world S) :
  stable_backend serve ->
  Forall (fun p => json_exact (fst p) = true /\ json_exact (snd p) = true) b ->
  fst (Api.loadBoundaries serve (snd (Api.saveBoundaries serve b w))) =
  Return (Some (boundaries_value b)).
Proof.
  intros Hstable Hexact.
  destruct (Hstable (JSON_value (boundaries_value b)) (server w))
    as (members & Hload & Hmember).
  rewrite <- save_request_payload, <- saveBoundaries_server in Hload.
  rewrite (loadBoundaries_member _ members Hload), Hmember.
  rewrite (JSON_value_boundaries b Hexact). reflexivity.
Qed.

(** C10: [getBuildingImageUrl] is a total function of the slug: a slug
    that starts with "http" is returned unchanged; any other slug gives
    the backend base URL followed by "/buildings/", the slug and
    "/image". *)
Theorem getBuildingImageUrl_cases (env : option string) (slug : string) :
  (String.prefix "http" slug = true ->
   Api.getBuildingImageUrl env slug = slug) /\
  (String.prefix "http" slug = false ->
   Api.getBuildingImageUrl env slug =
   Api.API_BASE_URL env ++ "/buildings/" ++ slug ++ "/image").
Proof.
  unfold Api.getBuildingImageUrl, startsWith.
  split; intros H; rewrite H; reflexivity.
Qed.

End ApiProperties.

Lemma loadBuildings_normalizes_witness :
  fst (ApiBuildings.loadBuildings
         (answering (ok_with (Text (JObj {[ "data" := JArr [JStr "library"; JStr "hall"];
                                            "results" := JArr [JStr "gate"] ]}))))
         (fresh_world tt None)) =
  Return [JStr "library"; JStr "hall"].
Proof.
  etransitivity.
  - apply (loadBuildings_normalizes
             (answering (ok_with (Text (JObj {[ "data" := JArr [JStr "library"; JStr "hall"];
                                                "results" := JArr [JStr "gate"] ]}))))
             (fresh_world tt None)
             (JObj {[ "data" := JArr [JStr "library"; JStr "hall"];
                      "results" := JArr [JStr "gate"] ]})).
    simpl. split; reflexivity.
  - reflexivity.
Defined.

Lemma load_failures_witness :
  fst (Api.loadBoundaries offline (fresh_world tt None)) = Return (Some null) /\
  fst (Api.loadBuildings offline (fresh_world tt None)) = Return null /\
  fst (Api.loadBuildingBySlug offline "library" (fresh_world tt None)) = Return null /\
  (exists e, fst (ApiBuildings.loadBuildings offline (fresh_world tt None)) = Throw e) /\
  (exists e, fst (Api.createBuilding offline None JNull (fresh_world tt None)) = Throw e).
Proof.
  destruct (load_failures offline None (fresh_world tt None) "library" "photo.png" JNull [])
    as (_ & H1 & H2 & H3 & H4 & _).
  assert (F : forall req, fails (fst (offline req (server (fresh_world tt None))))).
  { intros req. left. exact I. }
  repeat apply conj.
  - apply H1, F.
  - apply H2, F.
  - apply H3, F.
  - apply H2, F.
  - apply H4, F.
Defined.

(** Not every load operation turns a failure into [null]: with the
    network down, [loadBuildings] of [api/buildings.ts] throws the caught
    error again instead of returning. *)
Lemma buildings_loader_rethrows :
  fst (ApiBuildings.loadBuildings offline (fresh_world tt None)) =
    Throw (ErrorObj "Failed to fetch") /\
  ~ (exists v, fst (ApiBuildings.loadBuildings offline (fresh_world tt None)) = Return v).
Proof.
  split.
  - reflexivity.
  - intros [v H]. discriminate H.
Qed.

(** C3: with the network down and a valid boundary array already in
    local storage under [yabatech-campus-boundaries] (which
    [loadFromLocalStorage] would return), [loadBoundaries] returns
    [null] without reading local storage; and [saveBoundaries] returns
    an error string without writing to it.  The fallback helpers are
    never called. *)
Theorem boundaries_skip_localStorage :
  fst (Api.loadFromLocalStorage (fresh_world tt cached_triangle)) =
    Return (boundaries_value triangle) /\
  fst (Api.loadBoundaries offline (fresh_world tt cached_triangle)) = Return (Some null) /\
  storageLog (snd (Api.loadBoundaries offline (fresh_world tt cached_triangle))) = [] /\
  fst (Api.saveBoundaries offline triangle (fresh_world tt (Some ∅))) =
    Return (JStr "Error: Failed to fetch") /\
  storageLog (snd (Api.saveBoundaries offline triangle (fresh_world tt (Some ∅)))) = [] /\
  localStorage (snd (Api.saveBoundaries offline triangle (fresh_world tt (Some ∅)))) = Some ∅.
Proof.
  repeat apply conj; reflexivity.
Qed.

Lemma saveBoundaries_result_witness :
  (exists v, fst (Api.saveBoundaries offline triangle (fresh_world tt None)) = Return v /\
             is_error_string v) /\
  fst (Api.saveBoundaries (answering (ok_with (Text (JObj {[ "message" := JStr "saved" ]}))))
         triangle (fresh_world tt None)) = Return (JStr "saved") /\
  (exists v, fst (Api.saveBoundaries (answering no_content) triangle (fresh_world tt None)) =
             Return v /\ is_error_string v).
Proof.
  repeat apply conj.
  - destruct (saveBoundaries_result offline triangle (fresh_world tt None))
      as (_ & H & _).
    apply H. exact I.
  - destruct (saveBoundaries_result
                (answering (ok_with (Text (JObj {[ "message" := JStr "saved" ]}))))
                triangle (fresh_world tt None)) as (_ & _ & H & _).
    etransitivity.
    + apply (H (JObj {[ "message" := JStr "saved" ]})).
      * split; reflexivity.
      * discriminate.
    + reflexivity.
  - destruct (saveBoundaries_result (answering no_content) triangle (fresh_world tt None))
      as (_ & _ & _ & H).
    apply H. left. split; [reflexivity | exists ""; reflexivity].
Defined.

(** A successful response does not always give the message or the
    fixed success string: an ok response without a body has no message,
    yet [saveBoundaries] returns an error string. *)
Lemma saveBoundaries_empty_ok_response :
  ok no_content = true /\
  fst (Api.saveBoundaries (answering no_content) triangle (fresh_world tt None)) =
    Return (JStr "Error: Unexpected end of JSON input") /\
  fst (Api.saveBoundaries (answering no_content) triangle (fresh_world tt None)) <>
    Return (JStr "Boundaries saved successfully").
Proof.
  repeat apply conj.
  - reflexivity.
  - reflexivity.
  - intros H. discriminate H.
Qed.

Lemma stable_backend_echo : stable_backend echo.
Proof.
  intros payload s. exists {[ "boundaries" := payload ]}. split.
  - unfold echo, post_boundaries, get_boundaries; simpl.
    rewrite lookup_singleton_eq. simpl. split; reflexivity.
  - apply lookup_singleton_eq.
Qed.

Lemma boundaries_round_trip_witness :
  fst (Api.loadBoundaries echo (snd (Api.saveBoundaries echo triangle (fresh_world JNull None)))) =
  Return (Some (boundaries_value triangle)).
Proof.
  apply (boundaries_round_trip echo triangle (fresh_world JNull None) stable_backend_echo).
  repeat constructor.
Defined.

(** Not every boundary array survives the round trip: one holding NaN
    does not come back from the echoing backend, because the request
    body carries [null] in place of NaN. *)
Lemma boundaries_round_trip_nan :
  stable_backend echo /\
  fst (Api.loadBoundaries echo
         (snd (Api.saveBoundaries echo broken_triangle (fresh_world JNull None)))) =
    Return (Some (JArr [JArr [JNull; JNum 3.3]; JArr [JNum 6.5; JNum 3.4];
                        JArr [JNum 6.6; JNum 3.3]])) /\
  fst (Api.loadBoundaries echo
         (snd (Api.saveBoundaries echo broken_triangle (fresh_world JNull None)))) <>
    Return (Some (boundaries_value broken_triangle)).
Proof.
  repeat apply conj.
  - exact stable_backend_echo.
  - reflexivity.
  - intros H. vm_compute in H. discriminate H.
Qed.

Lemma getBuildingImageUrl_cases_witness :
  Api.getBuildingImageUrl None "https://cdn.example/library.png" =
    "https://cdn.example/library.png" /\
  Api.getBuildingImageUrl (Some "http://localhost:8000") "library" =
    "http://localhost:8000/buildings/library/image".
Proof.
  split.
  - destruct (getBuildingImageUrl_cases None "https://cdn.example/library.png") as [H _].
    apply H. reflexivity.
  - destruct (getBuildingImageUrl_cases (Some "http://localhost:8000") "library") as [_ H].
    apply H. reflexivity.
Defined.

(** ** The location picker *)
Section PickerProperties.
Import MapSelector.
#[local] Open Scope list_scope.
Variable parseFloat : string -> float.

Lemma useEffect_keeps (o : object) (s : State) :
  props (useEffect o s) = props s /\
  selectedPosition (useEffect o s) = selectedPosition s /\
  calls (useEffect o s) = calls s /\
  zoom (useEffect o s) = zoom s /\
  renders (useEffect o s) = renders s.
Proof.
  unfold useEffect. destruct (deps s) as [previous | ].
  - destruct (negb (ref_eqb previous (identity o))); repeat split; reflexivity.
  - repeat split; reflexivity.
Qed.

(** A render changes neither the props, nor the selected position, nor
    the calls made so far, nor the zoom. *)
Lemma render_keeps (s : State) :
  props (render s) = props s /\
  selectedPosition (render s) = selectedPosition s /\
  calls (render s) = calls s /\
  zoom (render s) = zoom s /\
  renders (render s) = S (renders s).
Proof.
  unfold render.
  destruct (useEffect_keeps
              (defaultPosition (props s) (renders s))
              {| props := props s; selectedPosition := selectedPosition s;
                 position := position s; deps := deps s; center := center s;
                 zoom := zoom s; calls := calls s; renders := S (renders s) |})
    as (H1 & H2 & H3 & H4 & H5).
  rewrite H1, H2, H3, H4, H5. repeat split; reflexivity.
Qed.

Lemma ref_eqb_eq (a b : ref) : ref_eqb a b = true <-> a = b.
Proof.
  destruct a as [n | n], b as [m | m]; simpl;
    rewrite ?Nat.eqb_eq; split; intros H; try discriminate; congruence.
Qed.


(** C4: the picker is mounted with [initialPosition = {lat: 6.5, lng: 3.3}]
    and the parent then passes [{lat: 6.6, lng: 3.4}].  The marker and
    the map centre move to the new value and the zoom stays 17, but the
    selected position of [MapSelector], shown by both numeric inputs,
    still holds the first value: the effect of [LocationMarker] resets
    only its own state. *)
Theorem initialPosition_change_misses_inputs :
  let s := step parseFloat (mount first_props) (Rerender next_props) in
  marker (view s) = {| lat := 6.6; lng := 3.4 |} /\
  center s = {| lat := 6.6; lng := 3.4 |} /\
  zoom s = zoom (mount first_props) /\
  selectedPosition s = {| lat := 6.5; lng := 3.3 |} /\
  latitudeInput (view s) = 6.5%float /\
  longitudeInput (view s) = 3.3%float /\
  calls s = [].
Proof.
  repeat apply conj; reflexivity.
Qed.

Lemma click_step (s : State) (c : LatLng) :
  selectedPosition (step parseFloat s (MapClick c)) = c /\
  calls (step parseFloat s (MapClick c)) = calls s ++ [c].
Proof.
  simpl. destruct (render_keeps (click c s)) as (_ & H2 & H3 & _).
  rewrite H2, H3. destruct c as [la ln]. split; reflexivity.
Qed.

Lemma last_nonempty {A : Type} (x : A) (l : list A) (d d' : A) :
  List.last (x :: l) d = List.last (x :: l) d'.
Proof.
  revert x. induction l as [ | y l IH]; intros x.
  - reflexivity.
  - change (List.last (y :: l) d = List.last (y :: l) d'). apply IH.
Qed.

(** C5: the click handler at once sets the marker position and the
    selected position to the clicked coordinate; after the render that
    follows, the selected position is still the clicked coordinate and
    [onLocationSelect] has been called once more, with that coordinate.
    So after any sequence of clicks the calls made are the earlier ones
    followed by the clicked coordinates, one per click and in click
    order, and the selected position is the last one clicked. *)
Theorem clicks_reported_in_order (s : State) (clicks : list LatLng) :
  (forall c : LatLng,
     position (click c s) = c /\
     selectedPosition (click c s) = c /\
     selectedPosition (step parseFloat s (MapClick c)) = c /\
     calls (step parseFloat s (MapClick c)) = calls s ++ [c]) /\
  calls (run parseFloat s (map MapClick clicks)) = calls s ++ clicks /\
  length (calls (run parseFloat s (map MapClick clicks))) =
    (length (calls s) + length clicks)%nat /\
  selectedPosition (run parseFloat s (map MapClick clicks)) =
    List.last clicks (selectedPosition s).
Proof.
  split.
  { intros c. destruct (click_step s c) as [Hsel Hcalls].
    destruct c as [la ln]. repeat split; assumption || reflexivity. }
  assert (H : calls (run parseFloat s (map MapClick clicks)) = calls s ++ clicks /\
              selectedPosition (run parseFloat s (map MapClick clicks)) =
                List.last clicks (selectedPosition s)).
  { revert s. induction clicks as [ | c clicks IH]; intros s.
    - simpl. rewrite app_nil_r. split; reflexivity.
    - unfold run in *. cbn [map fold_left].
      destruct (IH (step parseFloat s (MapClick c))) as [IH1 IH2].
      destruct (click_step s c) as [Hsel Hcalls].
      rewrite IH1, IH2, Hsel, Hcalls. rewrite <- app_assoc. split.
      + reflexivity.
      + destruct clicks as [ | c' clicks]; [ reflexivity | ].
        transitivity (List.last (c' :: clicks) (selectedPosition s));
          [ apply last_nonempty | reflexivity ]. }
  destruct H as [H1 H2]. rewrite H1, H2, length_app. repeat split; reflexivity.
Qed.

(** C6: an edit of either numeric input whose text parses to NaN leaves
    the whole state as it was, so the selected position is unchanged and
    [onLocationSelect] is not called; an edit whose text parses to a
    number replaces that axis of the selected position, keeps the other
    axis, and calls [onLocationSelect] once with the merged pair. *)
Theorem numeric_edit (s : State) (value : string) :
  (PrimFloat.is_nan (parseFloat value) = true ->
   step parseFloat s (LatitudeChange value) = s /\
   step parseFloat s (LongitudeChange value) = s) /\
  (PrimFloat.is_nan (parseFloat value) = false ->
   selectedPosition (step parseFloat s (LatitudeChange value)) =
     {| lat := parseFloat value; lng := lng (selectedPosition s) |} /\
   calls (step parseFloat s (LatitudeChange value)) =
     calls s ++ [{| lat := parseFloat value; lng := lng (selectedPosition s) |}] /\
   selectedPosition (step parseFloat s (LongitudeChange value)) =
     {| lat := lat (selectedPosition s); lng := parseFloat value |} /\
   calls (step parseFloat s (LongitudeChange value)) =
     calls s ++ [{| lat := lat (selectedPosition s); lng := parseFloat value |}]).
Proof.
  split; intros H; simpl; unfold onChangeLatitude, onChangeLongitude; rewrite H; simpl.
  - split; reflexivity.
  - repeat apply conj;
      match goal with
      | |- context [render ?t] =>
          destruct (render_keeps t) as (_ & H2 & H3 & _); rewrite ?H2, ?H3; reflexivity
      end.
Qed.

Lemma useEffect_same_but_buildings (o : object) (s1 s2 : State) :
  same_but_buildings s1 s2 ->
  same_but_buildings (useEffect o s1) (useEffect o s2).
Proof.
  unfold same_but_buildings, useEffect.
  intros (H1 & H2 & H3 & H4 & H5 & H6 & H7 & H8).
  rewrite H4. destruct (deps s2) as [previous | ] eqn:D; simpl;
    try destruct (negb (ref_eqb previous (identity o))); simpl;
    rewrite ?H2, ?H6, ?H7, ?H8; repeat split; congruence.
Qed.

Lemma render_same_but_buildings (s1 s2 : State) :
  same_but_buildings s1 s2 ->
  same_but_buildings (render s1) (render s2).
Proof.
  intros H. unfold render.
  assert (Hd : defaultPosition (props s1) (renders s1) =
               defaultPosition (props s2) (renders s2)).
  { destruct H as (H1 & _ & _ & _ & _ & _ & _ & H8).
    unfold defaultPosition. rewrite H1, H8. reflexivity. }
  rewrite Hd. apply useEffect_same_but_buildings.
  unfold same_but_buildings in *; simpl.
  destruct H as (H1 & H2 & H3 & H4 & H5 & H6 & H7 & H8).
  rewrite H8. repeat split; assumption.
Qed.

Lemma step_same_but_buildings (s1 s2 : State) (e1 e2 : Event) :
  same_but_buildings s1 s2 ->
  same_event_but_buildings e1 e2 ->
  same_but_buildings (step parseFloat s1 e1) (step parseFloat s2 e2).
Proof.
  intros H He.
  assert (Hs := H). destruct Hs as (H1 & H2 & H3 & H4 & H5 & H6 & H7 & H8).
  destruct e1 as [c | v | v | p1], e2 as [c' | v' | v' | p2];
    simpl in He; try discriminate He; try (inversion He; subst; clear He); simpl.
  - apply render_same_but_buildings. unfold same_but_buildings; simpl.
    rewrite H7. repeat split; assumption.
  - unfold onChangeLatitude. rewrite H2.
    destruct (negb (PrimFloat.is_nan (parseFloat v'))); [ | exact H ].
    apply render_same_but_buildings. unfold same_but_buildings; simpl.
    rewrite H7. repeat split; assumption.
  - unfold onChangeLongitude. rewrite H2.
    destruct (negb (PrimFloat.is_nan (parseFloat v'))); [ | exact H ].
    apply render_same_but_buildings. unfold same_but_buildings; simpl.
    rewrite H7. repeat split; assumption.
  - apply render_same_but_buildings. unfold same_but_buildings; simpl.
    repeat split; assumption.
Qed.

Lemma mount_same_but_buildings (p1 p2 : MapSelectorProps) :
  initialPosition p1 = initialPosition p2 ->
  same_but_buildings (mount p1) (mount p2).
Proof.
  intros H. unfold mount.
  assert (Hd : defaultPosition p1 0 = defaultPosition p2 0).
  { unfold defaultPosition. rewrite H. reflexivity. }
  rewrite Hd. apply useEffect_same_but_buildings.
  unfold same_but_buildings; simpl. repeat split; try reflexivity. exact H.
Qed.

(** C9: two runs of the picker that differ only in the buildings they
    are given (at mount and whenever the parent renders it again) and
    see the same user events end with the same selected position and
    the same sequence of [onLocationSelect] calls; indeed with the same
    state apart from the [buildings] prop. *)
Theorem buildings_do_not_interfere (p1 p2 : MapSelectorProps) (events1 events2 : list Event) :
  initialPosition p1 = initialPosition p2 ->
  Forall2 same_event_but_buildings events1 events2 ->
  selectedPosition (run parseFloat (mount p1) events1) =
    selectedPosition (run parseFloat (mount p2) events2) /\
  calls (run parseFloat (mount p1) events1) = calls (run parseFloat (mount p2) events2) /\
  same_but_buildings (run parseFloat (mount p1) events1) (run parseFloat (mount p2) events2).
Proof.
  intros Hp Hev.
  assert (H : same_but_buildings (run parseFloat (mount p1) events1)
                                 (run parseFloat (mount p2) events2)).
  { generalize (mount_same_but_buildings p1 p2 Hp).
    generalize (mount p1) (mount p2).
    induction Hev as [ | e1 e2 events1 events2 He _ IH]; intros s1 s2 Hs.
    - exact Hs.
    - unfold run in *. cbn [fold_left]. apply IH.
      apply step_same_but_buildings; assumption. }
  split; [ | split ]; [ apply H | apply H | exact H ].
Qed.

End PickerProperties.

Lemma numeric_edit_witness :
  MapSelector.selectedPosition
    (MapSelector.step parseDecimal (MapSelector.mount bare_props)
       (MapSelector.LatitudeChange "6.6")) =
    {| MapSelector.lat := 6.6; MapSelector.lng := 3.37534 |} /\
  MapSelector.calls
    (MapSelector.step parseDecimal (MapSelector.mount bare_props)
       (MapSelector.LatitudeChange "6.6")) =
    [{| MapSelector.lat := 6.6; MapSelector.lng := 3.37534 |}] /\
  MapSelector.step parseDecimal (MapSelector.mount bare_props)
    (MapSelector.LatitudeChange "abc") = MapSelector.mount bare_props.
Proof.
  destruct (numeric_edit parseDecimal (MapSelector.mount bare_props) "6.6") as [_ Hnum].
  destruct (Hnum eq_refl) as (H1 & H2 & _).
  destruct (numeric_edit parseDecimal (MapSelector.mount bare_props) "abc") as [Hnan _].
  destruct (Hnan eq_refl) as (H3 & _).
  repeat apply conj.
  - etransitivity; [ exact H1 | reflexivity ].
  - etransitivity; [ exact H2 | reflexivity ].
  - exact H3.
Defined.

Lemma buildings_do_not_interfere_witness :
  MapSelector.selectedPosition
    (MapSelector.run parseDecimal (MapSelector.mount bare_props)
       [MapSelector.MapClick {| MapSelector.lat := 6.5; MapSelector.lng := 3.3 |};
        MapSelector.LongitudeChange "3.4";
        MapSelector.Rerender bare_props]) =
  MapSelector.selectedPosition
    (MapSelector.run parseDecimal (MapSelector.mount props_with_library)
       [MapSelector.MapClick {| MapSelector.lat := 6.5; MapSelector.lng := 3.3 |};
        MapSelector.LongitudeChange "3.4";
        MapSelector.Rerender props_with_library]) /\
  MapSelector.calls
    (MapSelector.run parseDecimal (MapSelector.mount bare_props)
       [MapSelector.MapClick {| MapSelector.lat := 6.5; MapSelector.lng := 3.3 |};
        MapSelector.LongitudeChange "3.4";
        MapSelector.Rerender bare_props]) =
  MapSelector.calls
    (MapSelector.run parseDecimal (MapSelector.mount props_with_library)
       [MapSelector.MapClick {| MapSelector.lat := 6.5; MapSelector.lng := 3.3 |};
        MapSelector.LongitudeChange "3.4";
        MapSelector.Rerender props_with_library]).
Proof.
  destruct (buildings_do_not_interfere parseDecimal bare_props props_with_library
              [MapSelector.MapClick {| MapSelector.lat := 6.5; MapSelector.lng := 3.3 |};
               MapSelector.LongitudeChange "3.4";
               MapSelector.Rerender bare_props]
              [MapSelector.MapClick {| MapSelector.lat := 6.5; MapSelector.lng := 3.3 |};
               MapSelector.LongitudeChange "3.4";
               MapSelector.Rerender props_with_library])
    as (H1 & H2 & _).
  - reflexivity.
  - repeat constructor.
  - split; [ exact H1 | exact H2 ].
Defined.

(** The two clicks of the specification's example: two calls, in click
    order, with the clicked values. *)
Example two_clicks :
  MapSelector.calls
    (MapSelector.run parseDecimal (MapSelector.mount first_props)
       [MapSelector.MapClick {| MapSelector.lat := 6.50; MapSelector.lng := 3.30 |};
        MapSelector.MapClick {| MapSelector.lat := 6.55; MapSelector.lng := 3.35 |}]) =
  [{| MapSelector.lat := 6.50; MapSelector.lng := 3.30 |};
   {| MapSelector.lat := 6.55; MapSelector.lng := 3.35 |}].
Proof. reflexivity. Qed.

(** Without an [initialPosition] prop every render of [MapSelector]
    builds a new default object, so the effect of [LocationMarker] runs
    again after a click: the selected position is the clicked point,
    while the marker and the map centre are back on the campus default. *)
Example click_without_initialPosition :
  let s := MapSelector.step parseDecimal (MapSelector.mount bare_props)
             (MapSelector.MapClick {| MapSelector.lat := 6.5; MapSelector.lng := 3.3 |}) in
  MapSelector.selectedPosition s = {| MapSelector.lat := 6.5; MapSelector.lng := 3.3 |} /\
  MapSelector.marker (MapSelector.view s) = MapSelector.campus /\
  MapSelector.center s = MapSelector.campus.
Proof. repeat apply conj; reflexivity. Qed.

(** * Further properties of the API helpers *)

Section StorageProperties.
Context {S : Type}.


Lemma storage_is_available (stored : gmap string text) :
  bool_decide (is_Some (Some stored)) = true.
Proof. apply bool_decide_eq_true_2. eauto. Qed.


(** [loadFromLocalStorage] where local storage exists. *)
Lemma load_available (w : world S) (stored : gmap string text) :
  localStorage w = Some stored ->
  fst (Api.loadFromLocalStorage w) =
  Return
    match stored !! Api.LOCAL_STORAGE_KEY with
    | Some (Text (JArr items)) => if (3 <=? length items)%nat then JArr items else null
    | _ => null
    end.
Proof.
  intros Hs. open_storage. rewrite Hs, storage_is_available. simpl.
  rewrite Hs. simpl.
  destruct (stored !! Api.LOCAL_STORAGE_KEY) as [[data | [ | c raw]] | ];
    simpl; try reflexivity.
  destruct data as [ | bo | x | str | items | members]; simpl; try reflexivity.
  destruct (length items) as [ | [ | [ | n]]]; reflexivity.
Qed.




(** [loadFromLocalStorage] never throws and never changes what is
    stored; it returns [null] or an array of at least three entries, and
    an array only when that array is what the boundaries key holds. *)
Theorem loadFromLocalStorage_result (w : world S) :
  localStorage (snd (Api.loadFromLocalStorage w)) = localStorage w /\
  server (snd (Api.loadFromLocalStorage w)) = server w /\
  (fst (Api.loadFromLocalStorage w) = Return null \/
   exists stored items,
     localStorage w = Some stored /\
     stored !! Api.LOCAL_STORAGE_KEY = Some (Text (JArr items)) /\
     (3 <= length items)%nat /\
     fst (Api.loadFromLocalStorage w) = Return (JArr items)).
Proof.
  split; [ | split ].
  - destruct w as [sv [stored | ] sl co]; open_storage;
      rewrite ?storage_is_available; simpl; [ | reflexivity ].
    destruct (stored !! Api.LOCAL_STORAGE_KEY) as [[data | [ | c raw]] | ];
      simpl; try reflexivity.
    destruct data as [ | bo | x | str | items | members]; simpl; try reflexivity.
    destruct (length items) as [ | [ | [ | n]]]; reflexivity.
  - destruct w as [sv [stored | ] sl co]; open_storage;
      rewrite ?storage_is_available; simpl; [ | reflexivity ].
    destruct (stored !! Api.LOCAL_STORAGE_KEY) as [[data | [ | c raw]] | ];
      simpl; try reflexivity.
    destruct data as [ | bo | x | str | items | members]; simpl; try reflexivity.
    destruct (length items) as [ | [ | [ | n]]]; reflexivity.
  - destruct (localStorage w) as [stored | ] eqn:Hs.
    + rewrite (load_available w stored Hs).
      destruct (stored !! Api.LOCAL_STORAGE_KEY) as [[data | raw] | ] eqn:Hk;
        try (left; reflexivity).
      destruct data as [ | bo | x | str | items | members]; try (left; reflexivity).
      destruct (3 <=? length items)%nat eqn:Hlen; [ | left; reflexivity ].
      right. exists stored, items. apply Nat.leb_le in Hlen.
      repeat split; try reflexivity; assumption.
    + left. open_storage. rewrite Hs. reflexivity.
Qed.


End StorageProperties.

Section NetworkProperties.
Context {S : Type}.
Variable serve : request -> S -> fetched * S.
Variable env : option string.

(** The two building loaders on the same ok response: [loadBuildings] of
    [api.ts] returns the parsed body as it is, wrapped or not, while
    [loadBuildings] of [api/buildings.ts] returns its normalised array. *)
Theorem building_loaders_agree (w : world S) (v : json) :
  succeeds_with (fst (serve (Api.get_json "/api/buildings") (server w))) v ->
  fst (Api.loadBuildings serve w) = Return v /\
  fst (ApiBuildings.loadBuildings serve w) = Return (ApiBuildings.normalize v).
Proof.
  intros H. split; open_call; split_answer serve; try contradiction;
    destruct H as [H1 H2]; try discriminate; inversion H2; subst; reflexivity.
Qed.

(** On an ok response with a JSON body, [loadBuildingBySlug],
    [createBuilding], [updateBuilding] and [uploadBuildingImage] return
    the parsed body unchanged, whatever its shape ([null] included). *)
Theorem calls_return_body (w : world S) (slug file : string)
    (buildingData v : json) :
  (succeeds_with (fst (serve (Api.get_json ("/api/buildings/" ++ slug)) (server w))) v ->
   fst (Api.loadBuildingBySlug serve slug w) = Return v) /\
  (succeeds_with
     (fst (serve (Api.send_json "POST" (Api.API_BASE_URL env ++ "/buildings/create")
                    (JSON_stringify buildingData)) (server w))) v ->
   fst (Api.createBuilding serve env buildingData w) = Return v) /\
  (succeeds_with
     (fst (serve (Api.send_json "PUT" (Api.API_BASE_URL env ++ "/buildings/" ++ slug)
                    (JSON_stringify buildingData)) (server w))) v ->
   fst (Api.updateBuilding serve env slug buildingData w) = Return v) /\
  (succeeds_with
     (fst (serve {| url := "/api/buildings/" ++ slug ++ "/upload"; method := "POST";
                    headers := []; cache := None; reqBody := FormData file |}
             (server w))) v ->
   fst (Api.uploadBuildingImage serve slug file w) = Return v).
Proof.
  repeat apply conj; intros H; open_call; split_answer serve; try contradiction;
    destruct H as [H1 H2]; try discriminate; inversion H2; subst; reflexivity.
Qed.

(** The calls that throw again throw the very error they caught: when
    [fetch] rejects with [e] they throw [e], and when the response is not
    ok they throw the error built from its status text. *)
Theorem errors_rethrown_unchanged (w : world S) (slug file : string)
    (buildingData : json) (buildings : list json) :
  (forall e,
     fst (serve (Api.send_json "POST" (Api.API_BASE_URL env ++ "/buildings/create")
                   (JSON_stringify buildingData)) (server w)) = Rejected e ->
     fst (Api.createBuilding serve env buildingData w) = Throw e) /\
  (forall r,
     fst (serve (Api.send_json "POST" (Api.API_BASE_URL env ++ "/buildings/create")
                   (JSON_stringify buildingData)) (server w)) = Resolved r ->
     ok r = false ->
     fst (Api.createBuilding serve env buildingData w) =
       Throw (ErrorObj ("Failed to create building: " ++ statusText r))) /\
  (forall e,
     fst (serve (Api.send_json "PUT" (Api.API_BASE_URL env ++ "/buildings/" ++ slug)
                   (JSON_stringify buildingData)) (server w)) = Rejected e ->
     fst (Api.updateBuilding serve env slug buildingData w) = Throw e) /\
  (forall r,
     fst (serve (Api.send_json "PUT" (Api.API_BASE_URL env ++ "/buildings/" ++ slug)
                   (JSON_stringify buildingData)) (server w)) = Resolved r ->
     ok r = false ->
     fst (Api.updateBuilding serve env slug buildingData w) =
       Throw (ErrorObj ("Failed to update building: " ++ statusText r))) /\
  (forall e,
     fst (serve {| url := "/api/buildings/" ++ slug ++ "/upload"; method := "POST";
                   headers := []; cache := None; reqBody := FormData file |}
            (server w)) = Rejected e ->
     fst (Api.uploadBuildingImage serve slug file w) = Throw e) /\
  (forall r,
     fst (serve {| url := "/api/buildings/" ++ slug ++ "/upload"; method := "POST";
                   headers := []; cache := None; reqBody := FormData file |}
            (server w)) = Resolved r ->
     ok r = false ->
     fst (Api.uploadBuildingImage serve slug file w) =
       Throw (ErrorObj ("Failed to upload image: " ++ statusText r))) /\
  (forall e,
     fst (serve (Api.get_json "/api/buildings") (server w)) = Rejected e ->
     fst (ApiBuildings.loadBuildings serve w) = Throw e) /\
  (forall r,
     fst (serve (Api.get_json "/api/buildings") (server w)) = Resolved r ->
     ok r = false ->
     fst (ApiBuildings.loadBuildings serve w) =
       Throw (ErrorObj ("Failed to load buildings: " ++ statusText r))) /\
  (forall e,
     fst (serve (Api.send_json "POST" "/api/buildings" (JSON_stringify (JArr buildings)))
            (server w)) = Rejected e ->
     fst (ApiBuildings.saveBuildings serve buildings w) = Throw e) /\
  (forall r,
     fst (serve (Api.send_json "POST" "/api/buildings" (JSON_stringify (JArr buildings)))
            (server w)) = Resolved r ->
     ok r = false ->
     fst (ApiBuildings.saveBuildings serve buildings w) =
       Throw (ErrorObj ("Failed to save buildings: " ++ statusText r))).
Proof.
  repeat apply conj; intros; known_answer serve.
Qed.

(** [saveBuildings] on an ok response whose body is JSON for a value
    other than [null] returns the [message] member when that is truthy,
    and otherwise the fixed string; on an ok response whose body is
    [null] or not JSON it throws (where [saveBoundaries] returns an
    error string). *)
Theorem saveBuildings_result (w : world S) (buildings : list json) :
  (forall data,
     succeeds_with
       (fst (serve (Api.send_json "POST" "/api/buildings" (JSON_stringify (JArr buildings)))
               (server w))) data ->
     data <> JNull ->
     fst (ApiBuildings.saveBuildings serve buildings w) =
     Return
       match member data "message" with
       | Some message =>
           if truthy message then message else JStr "Buildings saved successfully"
       | None => JStr "Buildings saved successfully"
       end) /\
  (unreadable
     (fst (serve (Api.send_json "POST" "/api/buildings" (JSON_stringify (JArr buildings)))
             (server w))) \/
   succeeds_with
     (fst (serve (Api.send_json "POST" "/api/buildings" (JSON_stringify (JArr buildings)))
             (server w))) JNull ->
   exists e, fst (ApiBuildings.saveBuildings serve buildings w) = Throw e).
Proof.
  split.
  - intros v H Hv. open_call. split_answer serve;
      try contradiction; destruct H as [H1 H2]; try discriminate.
    inversion H2; subst. destruct v; try reflexivity. congruence.
  - intros H. open_call. split_answer serve; try solve [ eexists; reflexivity ].
    destruct H as [[_ [raw H]] | [_ H]]; [ discriminate H | ].
    inversion H; subst. simpl. eexists; reflexivity.
Qed.

(** No retry and no second request: after each call the server is in
    the state one handling of that call's request leaves it in. *)
Theorem one_request_per_call (w : world S) (slug file : string)
    (b : list (float * float)) (buildingData : json) (buildings : list json) :
  server (snd (Api.loadBoundaries serve w)) = snd (serve get_boundaries (server w)) /\
  server (snd (Api.saveBoundaries serve b w)) = snd (serve (save_request b) (server w)) /\
  server (snd (Api.loadBuildings serve w)) =
    snd (serve (Api.get_json "/api/buildings") (server w)) /\
  server (snd (Api.loadBuildingBySlug serve slug w)) =
    snd (serve (Api.get_json ("/api/buildings/" ++ slug)) (server w)) /\
  server (snd (Api.createBuilding serve env buildingData w)) =
    snd (serve (Api.send_json "POST" (Api.API_BASE_URL env ++ "/buildings/create")
                  (JSON_stringify buildingData)) (server w)) /\
  server (snd (Api.updateBuilding serve env slug buildingData w)) =
    snd (serve (Api.send_json "PUT" (Api.API_BASE_URL env ++ "/buildings/" ++ slug)
                  (JSON_stringify buildingData)) (server w)) /\
  server (snd (Api.uploadBuildingImage serve slug file w)) =
    snd (serve {| url := "/api/buildings/" ++ slug ++ "/upload"; method := "POST";
                  headers := []; cache := None; reqBody := FormData file |}
           (server w)) /\
  server (snd (ApiBuildings.loadBuildings serve w)) =
    snd (serve (Api.get_json "/api/buildings") (server w)) /\
  server (snd (ApiBuildings.saveBuildings serve buildings w)) =
    snd (serve (Api.send_json "POST" "/api/buildings" (JSON_stringify (JArr buildings)))
           (server w)).
Proof.
  repeat apply conj; open_call; split_answer serve; try destruct data; reflexivity.
Qed.

(** None of the building calls reads or writes local storage. *)
Theorem building_calls_leave_storage (w : world S) (slug file : string)
    (buildingData : json) (buildings : list json) :
  (storageLog (snd (Api.loadBuildings serve w)) = storageLog w /\
   localStorage (snd (Api.loadBuildings serve w)) = localStorage w) /\
  (storageLog (snd (Api.loadBuildingBySlug serve slug w)) = storageLog w /\
   localStorage (snd (Api.loadBuildingBySlug serve slug w)) = localStorage w) /\
  (storageLog (snd (Api.createBuilding serve env buildingData w)) = storageLog w /\
   localStorage (snd (Api.createBuilding serve env buildingData w)) = localStorage w) /\
  (storageLog (snd (Api.updateBuilding serve env slug buildingData w)) = storageLog w /\
   localStorage (snd (Api.updateBuilding serve env slug buildingData w)) = localStorage w) /\
  (storageLog (snd (Api.uploadBuildingImage serve slug file w)) = storageLog w /\
   localStorage (snd (Api.uploadBuildingImage serve slug file w)) = localStorage w) /\
  (storageLog (snd (ApiBuildings.loadBuildings serve w)) = storageLog w /\
   localStorage (snd (ApiBuildings.loadBuildings serve w)) = localStorage w) /\
  (storageLog (snd (ApiBuildings.saveBuildings serve buildings w)) = storageLog w /\
   localStorage (snd (ApiBuildings.saveBuildings serve buildings w)) = localStorage w).
Proof.
  repeat apply conj; open_call; split_answer serve; try destruct data; reflexivity.
Qed.

(** What the boundary calls leave on the console: when the call fails
    (fetch rejected, response not ok, body not JSON) exactly one error
    line is added after the lines already there; when the response is ok
    with a JSON object, nothing is added. *)
Theorem boundary_calls_console (w : world S) (b : list (float * float)) :
  (fails (fst (serve get_boundaries (server w))) ->
   console (snd (Api.loadBoundaries serve w)) =
     (console w ++ [(Error, "Error loading boundaries:")])%list) /\
  (forall members,
     succeeds_with (fst (serve get_boundaries (server w))) (JObj members) ->
     console (snd (Api.loadBoundaries serve w)) = console w) /\
  (fails (fst (serve (save_request b) (server w))) ->
   console (snd (Api.saveBoundaries serve b w)) =
     (console w ++ [(Error, "Error saving boundaries:")])%list) /\
  (forall members,
     succeeds_with (fst (serve (save_request b) (server w))) (JObj members) ->
     console (snd (Api.saveBoundaries serve b w)) = console w).
Proof.
  repeat apply conj.
  - intros H. failed_call serve.
  - intros members H. open_call. split_answer serve; try contradiction;
      destruct H as [H1 H2]; try discriminate; inversion H2; subst; reflexivity.
  - intros H. failed_call serve.
  - intros members H. open_call. split_answer serve; try contradiction;
      destruct H as [H1 H2]; try discriminate; inversion H2; subst; reflexivity.
Qed.

End NetworkProperties.

Lemma prefix_app (p a b : string) :
  String.prefix p a = true -> String.prefix p (a ++ b) = true.
Proof.
  revert a. induction p as [ | c p IH]; intros a H.
  - destruct a; simpl; [ destruct b; reflexivity | reflexivity ].
  - destruct a as [ | c' a]; simpl in *; [ discriminate H | ].
    destruct (ascii_dec c c'); [ apply IH; exact H | discriminate H ].
Qed.

(** When the backend base URL itself starts with "http" (as the default
    one does), every URL [getBuildingImageUrl] returns starts with
    "http", so applying it again changes nothing. *)
Theorem getBuildingImageUrl_idempotent (env : option string) (slug : string) :
  String.prefix "http" (Api.API_BASE_URL env) = true ->
  String.prefix "http" (Api.getBuildingImageUrl env slug) = true /\
  Api.getBuildingImageUrl env (Api.getBuildingImageUrl env slug) =
    Api.getBuildingImageUrl env slug.
Proof.
  intros Hbase.
  assert (H : String.prefix "http" (Api.getBuildingImageUrl env slug) = true).
  { unfold Api.getBuildingImageUrl, startsWith.
    destruct (String.prefix "http" slug) eqn:E; [ exact E | ].
    apply prefix_app. exact Hbase. }
  split; [ exact H | ].
  unfold Api.getBuildingImageUrl at 1. unfold startsWith. rewrite H. reflexivity.
Qed.

(** * Further properties of the location picker *)
Section PickerInvariants.
Import MapSelector.
#[local] Open Scope list_scope.
Variable parseFloat : string -> float.

(** At mount the marker, both inputs and the map centre show the same
    position: the one passed as [initialPosition], or the campus default
    when none is passed; the zoom is 17 and [onLocationSelect] has not
    been called. *)
Theorem mount_state (p : MapSelectorProps) :
  selectedPosition (mount p) =
    match initialPosition p with
    | Some o => fields o
    | None => campus
    end /\
  marker (view (mount p)) = selectedPosition (mount p) /\
  center (mount p) = selectedPosition (mount p) /\
  zoom (mount p) = 17%float /\
  calls (mount p) = [].
Proof.
  unfold mount, useEffect, defaultPosition.
  destruct (initialPosition p) as [o | ]; simpl; repeat split; reflexivity.
Qed.

Lemma step_zoom (s : State) (e : Event) : zoom (step parseFloat s e) = zoom s.
Proof.
  destruct e as [c | v | v | p]; simpl.
  - destruct (render_keeps (click c s)) as (_ & _ & _ & H & _). rewrite H. reflexivity.
  - unfold onChangeLatitude. destruct (negb _); [ | reflexivity ].
    match goal with
    | |- context [render ?t] =>
        destruct (render_keeps t) as (_ & _ & _ & H & _); rewrite H; reflexivity
    end.
  - unfold onChangeLongitude. destruct (negb _); [ | reflexivity ].
    match goal with
    | |- context [render ?t] =>
        destruct (render_keeps t) as (_ & _ & _ & H & _); rewrite H; reflexivity
    end.
  - destruct (render_keeps (set_props p s)) as (_ & _ & _ & H & _).
    rewrite H. reflexivity.
Qed.

(** Nothing the picker does changes the zoom of the map: after any
    sequence of clicks, edits and renders it is the zoom it was. *)
Theorem zoom_never_changes (s : State) (events : list Event) :
  zoom (run parseFloat s events) = zoom s.
Proof.
  revert s. induction events as [ | e events IH]; intros s.
  - reflexivity.
  - unfold run in *. cbn [fold_left]. rewrite IH. apply step_zoom.
Qed.




End PickerInvariants.

Section PickerMarker.
Import MapSelector.
#[local] Open Scope list_scope.
Variable parseFloat : string -> float.



(** A render without an [initialPosition] prop puts the marker and the
    map centre on the campus default, and stays in that regime. *)
Lemma render_without_initialPosition (s : State) :
  initialPosition (props s) = None ->
  effect_saw_earlier_literal s ->
  position (render s) = campus /\ center (render s) = campus /\
  initialPosition (props (render s)) = None /\
  effect_saw_earlier_literal (render s).
Proof.
  intros Hp Hd. unfold render, useEffect, defaultPosition, effect_saw_earlier_literal in *.
  rewrite Hp. simpl.
  destruct (deps s) as [[n | n] | ]; simpl.
  - repeat split; try assumption. lia.
  - assert (E : Nat.eqb n (renders s) = false) by (apply Nat.eqb_neq; lia).
    rewrite E. simpl. repeat split; try assumption. lia.
  - repeat split; try assumption. lia.
Qed.

Lemma step_without_initialPosition (s : State) (e : Event) :
  initialPosition (props s) = None ->
  effect_saw_earlier_literal s ->
  without_initialPosition e ->
  initialPosition (props (step parseFloat s e)) = None /\
  effect_saw_earlier_literal (step parseFloat s e).
Proof.
  intros Hp Hd He. destruct e as [c | v | v | p]; simpl in *.
  - apply (render_without_initialPosition (click c s)); assumption.
  - unfold onChangeLatitude. destruct (negb _); [ | split; assumption ].
    match goal with
    | |- context [render ?t] => apply (render_without_initialPosition t); assumption
    end.
  - unfold onChangeLongitude. destruct (negb _); [ | split; assumption ].
    match goal with
    | |- context [render ?t] => apply (render_without_initialPosition t); assumption
    end.
  - apply (render_without_initialPosition (set_props p s)); assumption.
Qed.

(** When the parent never passes an [initialPosition], the marker does
    not stay where the user clicks: after every click the selected
    position is the clicked point, but the marker and the map centre are
    back on the campus default, because each render builds a new default
    object and the effect runs again. *)
Theorem marker_returns_to_default (p : MapSelectorProps) (events : list Event)
    (c : LatLng) :
  initialPosition p = None ->
  Forall without_initialPosition events ->
  selectedPosition (step parseFloat (run parseFloat (mount p) events) (MapClick c)) = c /\
  marker (view (step parseFloat (run parseFloat (mount p) events) (MapClick c))) = campus /\
  center (step parseFloat (run parseFloat (mount p) events) (MapClick c)) = campus.
Proof.
  intros Hp Hev.
  assert (H : initialPosition (props (run parseFloat (mount p) events)) = None /\
              effect_saw_earlier_literal (run parseFloat (mount p) events)).
  { assert (H0 : initialPosition (props (mount p)) = None /\
                 effect_saw_earlier_literal (mount p)).
    { unfold mount, useEffect, defaultPosition, effect_saw_earlier_literal.
      rewrite Hp. simpl. split; [ exact Hp | lia ]. }
    revert H0. generalize (mount p).
    induction Hev as [ | e events He _ IH]; intros s [H1 H2].
    - split; assumption.
    - unfold run in *. cbn [fold_left]. apply IH.
      apply step_without_initialPosition; assumption. }
  destruct H as [H1 H2]. split.
  - apply (click_step parseFloat).
  - simpl.
    destruct (render_without_initialPosition
                (click c (run parseFloat (mount p) events)) H1 H2) as (Hm & Hc & _).
    split; assumption.
Qed.

(** While the parent keeps passing the position object the effect has
    already seen, the marker goes where the user clicks and the map is
    not recentred; an edit of a numeric input changes the selected
    position but does not move the marker; and after each of these the
    effect has still seen that object. *)
Theorem marker_with_stable_prop (s : State) (o : object) (c : LatLng)
    (value : string) :
  initialPosition (props s) = Some o ->
  deps s = Some (identity o) ->
  (position (step parseFloat s (MapClick c)) = c /\
   center (step parseFloat s (MapClick c)) = center s) /\
  (position (step parseFloat s (LatitudeChange value)) = position s /\
   position (step parseFloat s (LongitudeChange value)) = position s) /\
  (deps (step parseFloat s (MapClick c)) = Some (identity o) /\
   deps (step parseFloat s (LatitudeChange value)) = Some (identity o) /\
   deps (step parseFloat s (LongitudeChange value)) = Some (identity o)).
Proof.
  intros Hp Hd.
  assert (E : ref_eqb (identity o) (identity o) = true) by (apply ref_eqb_eq; reflexivity).
  assert (R : forall t : State,
             initialPosition (props t) = Some o -> deps t = Some (identity o) ->
             position (render t) = position t /\ center (render t) = center t /\
             deps (render t) = Some (identity o)).
  { intros t Ht Hdt. unfold render, useEffect, defaultPosition. rewrite Ht. simpl.
    rewrite Hdt, E. simpl. repeat split; assumption. }
  repeat apply conj; simpl; unfold onChangeLatitude, onChangeLongitude;
    try destruct (negb _); try assumption; try reflexivity;
    match goal with
    | |- context [render ?t] =>
        destruct (R t Hp Hd) as (H1 & H2 & H3); rewrite ?H1, ?H2, ?H3
    end;
    try reflexivity.
  destruct c; reflexivity.
Qed.


End PickerMarker.

(** ** The further properties at concrete inputs *)




Lemma building_loaders_agree_witness :
  fst (Api.loadBuildings
         (answering (ok_with (Text (JObj {[ "buildings" := JArr [JStr "library"] ]}))))
         (fresh_world tt None)) =
    Return (JObj {[ "buildings" := JArr [JStr "library"] ]}) /\
  fst (ApiBuildings.loadBuildings
         (answering (ok_with (Text (JObj {[ "buildings" := JArr [JStr "library"] ]}))))
         (fresh_world tt None)) =
    Return (ApiBuildings.normalize (JObj {[ "buildings" := JArr [JStr "library"] ]})).
Proof.
  apply (building_loaders_agree
           (answering (ok_with (Text (JObj {[ "buildings" := JArr [JStr "library"] ]}))))
           (fresh_world tt None)).
  split; reflexivity.
Defined.

Lemma calls_return_body_witness :
  fst (Api.loadBuildingBySlug (answering (ok_with (Text (JStr "library")))) "library"
         (fresh_world tt None)) = Return (JStr "library") /\
  fst (Api.createBuilding (answering (ok_with (Text (JStr "library")))) None JNull
         (fresh_world tt None)) = Return (JStr "library").
Proof.
  destruct (calls_return_body (answering (ok_with (Text (JStr "library")))) None
              (fresh_world tt None) "library" "photo.png" JNull (JStr "library"))
    as (H1 & H2 & _).
  split; [ apply H1 | apply H2 ]; split; reflexivity.
Defined.

Lemma errors_rethrown_unchanged_witness :
  fst (Api.createBuilding offline None JNull (fresh_world tt None)) =
    Throw (ErrorObj "Failed to fetch") /\
  fst (ApiBuildings.loadBuildings (answering server_error) (fresh_world tt None)) =
    Throw (ErrorObj ("Failed to load buildings: " ++ statusText server_error)).
Proof.
  split.
  - destruct (errors_rethrown_unchanged offline None (fresh_world tt None)
                "library" "photo.png" JNull []) as (H & _).
    apply H. reflexivity.
  - destruct (errors_rethrown_unchanged (answering server_error) None (fresh_world tt None)
                "library" "photo.png" JNull []) as (_ & _ & _ & _ & _ & _ & _ & H & _).
    apply H; reflexivity.
Defined.

Lemma saveBuildings_result_witness :
  fst (ApiBuildings.saveBuildings
         (answering (ok_with (Text (JObj {[ "message" := JStr "" ]}))))
         [JStr "library"] (fresh_world tt None)) =
    Return (JStr "Buildings saved successfully") /\
  exists e,
    fst (ApiBuildings.saveBuildings (answering no_content) [JStr "library"]
           (fresh_world tt None)) = Throw e.
Proof.
  split.
  - destruct (saveBuildings_result
                (answering (ok_with (Text (JObj {[ "message" := JStr "" ]}))))
                (fresh_world tt None) [JStr "library"]) as [H _].
    etransitivity.
    + apply (H (JObj {[ "message" := JStr "" ]})).
      * split; reflexivity.
      * discriminate.
    + reflexivity.
  - destruct (saveBuildings_result (answering no_content) (fresh_world tt None)
                [JStr "library"]) as [_ H].
    apply H. left. split; [ reflexivity | exists ""; reflexivity ].
Defined.

Lemma boundary_calls_console_witness :
  console (snd (Api.loadBoundaries offline (fresh_world tt None))) =
    [(Error, "Error loading boundaries:")] /\
  console (snd (Api.saveBoundaries echo triangle (fresh_world JNull None))) = [].
Proof.
  split.
  - destruct (boundary_calls_console offline (fresh_world tt None) triangle) as (H & _).
    apply H. left. exact I.
  - destruct (boundary_calls_console echo (fresh_world JNull None) triangle)
      as (_ & _ & _ & H).
    apply (H {[ "message" := JStr "Boundaries saved" ]}). split; reflexivity.
Defined.

Lemma getBuildingImageUrl_idempotent_witness :
  String.prefix "http" (Api.getBuildingImageUrl None "library") = true /\
  Api.getBuildingImageUrl None (Api.getBuildingImageUrl None "library") =
    Api.getBuildingImageUrl None "library".
Proof.
  apply (getBuildingImageUrl_idempotent None "library"). reflexivity.
Defined.


Lemma marker_returns_to_default_witness :
  MapSelector.selectedPosition
    (MapSelector.step parseDecimal
       (MapSelector.run parseDecimal (MapSelector.mount bare_props)
          [MapSelector.LatitudeChange "6.6"; MapSelector.Rerender props_with_library])
       (MapSelector.MapClick {| MapSelector.lat := 6.5; MapSelector.lng := 3.3 |})) =
    {| MapSelector.lat := 6.5; MapSelector.lng := 3.3 |} /\
  MapSelector.marker
    (MapSelector.view
       (MapSelector.step parseDecimal
          (MapSelector.run parseDecimal (MapSelector.mount bare_props)
             [MapSelector.LatitudeChange "6.6"; MapSelector.Rerender props_with_library])
          (MapSelector.MapClick {| MapSelector.lat := 6.5; MapSelector.lng := 3.3 |}))) =
    MapSelector.campus /\
  MapSelector.center
    (MapSelector.step parseDecimal
       (MapSelector.run parseDecimal (MapSelector.mount bare_props)
          [MapSelector.LatitudeChange "6.6"; MapSelector.Rerender props_with_library])
       (MapSelector.MapClick {| MapSelector.lat := 6.5; MapSelector.lng := 3.3 |})) =
    MapSelector.campus.
Proof.
  apply (marker_returns_to_default parseDecimal bare_props
           [MapSelector.LatitudeChange "6.6"; MapSelector.Rerender props_with_library]).
  - reflexivity.
  - repeat constructor.
Defined.

Lemma marker_with_stable_prop_witness :
  MapSelector.position
    (MapSelector.step parseDecimal (MapSelector.mount first_props)
       (MapSelector.MapClick {| MapSelector.lat := 6.55; MapSelector.lng := 3.35 |})) =
    {| MapSelector.lat := 6.55; MapSelector.lng := 3.35 |} /\
  MapSelector.position
    (MapSelector.step parseDecimal (MapSelector.mount first_props)
       (MapSelector.LatitudeChange "6.6")) =
    MapSelector.position (MapSelector.mount first_props).
Proof.
  destruct (marker_with_stable_prop parseDecimal (MapSelector.mount first_props)
              {| MapSelector.identity := MapSelector.External 0;
                 MapSelector.fields := {| MapSelector.lat := 6.5; MapSelector.lng := 3.3 |} |}
              {| MapSelector.lat := 6.55; MapSelector.lng := 3.35 |} "6.6")
    as ((H1 & _) & (H2 & _) & _).
  - reflexivity.
  - reflexivity.
  - split; [ exact H1 | exact H2 ].
Defined.


